(** * Stopwatch Pro: the timekeeping and lap bookkeeping of [src/App.tsx]

    The React component [App] keeps three pieces of render state
    ([time], [isRunning], [lapTimes]) and three refs ([intervalRef],
    [startTimeRef], [lapCounter]).  Its handlers are embedded below as
    functions on a record holding these six cells together with the two
    pieces of the browser they talk to: the wall clock behind
    [Date.now()] and the table of live interval timers behind
    [setInterval] / [clearInterval].

    Modelling conventions.
    - JavaScript numbers are IEEE doubles; every number the stopwatch
      handles is an integer count of milliseconds, exact below 2^53, and
      is modelled as [Z].  [Math.floor (a / b)] on such integers with
      [b > 0] is floor division [Z.div]; [%] is the truncating remainder
      [Z.rem].
    - A handler runs to completion against the state of the last render
      and its [set...] calls are committed before the next event is
      handled (one event, one step).
    - The decorative state ([floatingClocks], [particles]) never feeds
      back into the stopwatch and is left out. *)

From stdpp Require Import base gmap sets list strings.
From Stdlib Require Import ZArith Lia Ascii.

Open Scope Z_scope.

(* ================================================================== *)
(** ** JavaScript string primitives used by [formatTime] *)
(* ================================================================== *)

Module JS.

(** The character of a decimal digit [0..9]. *)
Definition digit_char (d : Z) : ascii := ascii_of_nat (48 + Z.to_nat d).

(** Decimal digits of a non-negative integer, most significant first:
    the digits of [n / 10] (none when [n < 10]) followed by the digit
    [n mod 10].  [fuel] bounds the recursion depth. *)
Fixpoint digits_fuel (fuel : nat) (n : Z) : string :=
  match fuel with
  | O => EmptyString
  | S f =>
      (if n <? 10 then EmptyString else digits_fuel f (n / 10))
        +:+ String (digit_char (n mod 10)) EmptyString
  end.

(** A number below [2 ^ fuel] has at most [fuel] decimal digits. *)
Definition digits (n : Z) : string :=
  digits_fuel (S (Z.to_nat (Z.log2 n))) n.

(** [Number.prototype.toString()] on an integer. *)
Definition toString (n : Z) : string :=
  if n <? 0 then String "-"%char (digits (- n)) else digits n.

(** The first [len] characters of [pad] repeated for ever; [rest] is
    what is left of the current copy of [pad]. *)
Fixpoint fill (len : nat) (pad rest : string) : string :=
  match len with
  | O => EmptyString
  | S k =>
      match rest with
      | String c r => String c (fill k pad r)
      | EmptyString =>
          match pad with
          | String c r => String c (fill k pad r)
          | EmptyString => EmptyString
          end
      end
  end.

(** [String.prototype.padStart(targetLength, padString)]. *)
Definition padStart (targetLength : nat) (padString s : string) : string :=
  if (targetLength <=? String.length s)%nat then s
  else fill (targetLength - String.length s) padString padString +:+ s.

End JS.

(** [formatTime], App.tsx lines 43-51. *)
Definition formatTime (timeMs : Z) : string :=
  let minutes := timeMs / 60000 in
  let seconds := Z.rem timeMs 60000 / 1000 in
  let milliseconds := Z.rem timeMs 1000 / 10 in
  JS.padStart 2 "0" (JS.toString minutes)
    +:+ ":" +:+ JS.padStart 2 "0" (JS.toString seconds)
    +:+ "." +:+ JS.padStart 2 "0" (JS.toString milliseconds).

(* ================================================================== *)
(** ** Reading a formatted field back *)
(* ================================================================== *)

(** Value of one character read as a decimal digit. *)
Definition digit_val (c : ascii) : Z := Z.of_nat (nat_of_ascii c) - 48.

Definition is_digit (c : ascii) : bool :=
  (0 <=? digit_val c) && (digit_val c <=? 9).

Fixpoint all_digits (s : string) : bool :=
  match s with
  | EmptyString => true
  | String c r => is_digit c && all_digits r
  end.

(** Value of a string of decimal digits, leading zeros allowed. *)
Fixpoint value_from (acc : Z) (s : string) : Z :=
  match s with
  | EmptyString => acc
  | String c r => value_from (10 * acc + digit_val c) r
  end.

Definition decimal_value (s : string) : Z := value_from 0 s.

(** The first character of [s] is the digit zero. *)
Definition leading_zero (s : string) : bool :=
  match s with
  | String c _ => bool_decide (c = "0"%char)
  | EmptyString => false
  end.

(** The formatting contract: [out] reads [MM:SS.CC] for [t]
    milliseconds.  Each field consists of decimal digits only; [SS] and
    [CC] have exactly two of them; [MM] has two below 100 minutes and
    otherwise as many as the number needs, with no zero in front.  The
    fields carry the truncated quotients. *)
Definition reads_MM_SS_CC (t : Z) (out : string) : Prop :=
  exists mm ss cc : string,
    out = mm +:+ ":" +:+ ss +:+ "." +:+ cc
    /\ all_digits mm = true /\ all_digits ss = true /\ all_digits cc = true
    /\ decimal_value mm = t / 60000
    /\ decimal_value ss = (t mod 60000) / 1000
    /\ decimal_value cc = (t mod 1000) / 10
    /\ String.length ss = 2%nat
    /\ String.length cc = 2%nat
    /\ (2 <= String.length mm)%nat
    /\ (t / 60000 < 100 -> String.length mm = 2%nat)
    /\ (100 <= t / 60000 ->
        (3 <= String.length mm)%nat /\ leading_zero mm = false).

(* ================================================================== *)
(** ** Data model *)
(* ================================================================== *)

(** [interface LapTime], App.tsx lines 4-9. *)
Record LapTime := mkLap {
  id : Z;
  lapNumber : Z;
  lapTime : Z;
  totalTime : Z
}.

(** The cells of the component and the part of the browser it uses.
    An interval handle is a positive integer (always truthy). *)
Record State := mkState {
  time : Z;                        (* useState(0) *)
  isRunning : bool;                (* useState(false) *)
  lapTimes : list LapTime;         (* useState<LapTime[]>([]) *)
  intervalRef : option positive;   (* useRef(null) *)
  startTimeRef : Z;                (* useRef(0) *)
  lapCounter : Z;                  (* useRef(1) *)
  now : Z;                         (* the value Date.now() returns *)
  timers : gset positive           (* live handles of the sampling interval *)
}.

Definition set_time (v : Z) (s : State) : State :=
  mkState v (isRunning s) (lapTimes s) (intervalRef s) (startTimeRef s)
          (lapCounter s) (now s) (timers s).
Definition set_isRunning (v : bool) (s : State) : State :=
  mkState (time s) v (lapTimes s) (intervalRef s) (startTimeRef s)
          (lapCounter s) (now s) (timers s).
Definition set_lapTimes (v : list LapTime) (s : State) : State :=
  mkState (time s) (isRunning s) v (intervalRef s) (startTimeRef s)
          (lapCounter s) (now s) (timers s).
Definition set_intervalRef (v : option positive) (s : State) : State :=
  mkState (time s) (isRunning s) (lapTimes s) v (startTimeRef s)
          (lapCounter s) (now s) (timers s).
Definition set_startTimeRef (v : Z) (s : State) : State :=
  mkState (time s) (isRunning s) (lapTimes s) (intervalRef s) v
          (lapCounter s) (now s) (timers s).
Definition set_lapCounter (v : Z) (s : State) : State :=
  mkState (time s) (isRunning s) (lapTimes s) (intervalRef s) (startTimeRef s)
          v (now s) (timers s).
Definition set_now (v : Z) (s : State) : State :=
  mkState (time s) (isRunning s) (lapTimes s) (intervalRef s) (startTimeRef s)
          (lapCounter s) v (timers s).
Definition set_timers (v : gset positive) (s : State) : State :=
  mkState (time s) (isRunning s) (lapTimes s) (intervalRef s) (startTimeRef s)
          (lapCounter s) (now s) v.

(** Expose the cells of a state written with the setters above. *)
Ltac cells :=
  unfold set_time, set_isRunning, set_lapTimes, set_intervalRef,
    set_startTimeRef, set_lapCounter, set_now, set_timers in *;
  simpl in *.

(** The component right after mounting, with the wall clock at [t0]. *)
Definition initial (t0 : Z) : State :=
  mkState 0 false [] None 0 1 t0 ∅.

(* ================================================================== *)
(** ** Browser timers *)
(* ================================================================== *)

(** [setInterval(tick, 10)] where the browser hands out handle [h]. *)
Definition setInterval (h : positive) (s : State) : State :=
  set_timers ({[ h ]} ∪ timers s) s.

(** [clearInterval(h)]: nothing happens when [h] is not live. *)
Definition clearInterval (h : positive) (s : State) : State :=
  set_timers (timers s ∖ {[ h ]}) s.

(** The interval callback of App.tsx lines 131-133 for handle [h]:
    [setTime(Date.now() - startTimeRef.current)].  A handle that is not
    live never fires. *)
Definition tick (h : positive) (s : State) : State :=
  if bool_decide (h ∈ timers s) then set_time (now s - startTimeRef s) s
  else s.

(* ================================================================== *)
(** ** Handlers *)
(* ================================================================== *)

(** [startStopwatch], App.tsx lines 128-137; [h] is the handle returned
    by [setInterval]. *)
Definition startStopwatch (h : positive) (s : State) : State :=
  if negb (isRunning s) then
    let s1 := set_startTimeRef (now s - time s) s in
    let s2 := set_intervalRef (Some h) (setInterval h s1) in
    set_isRunning true s2
  else s.

(** [pauseStopwatch], App.tsx lines 139-146. *)
Definition pauseStopwatch (s : State) : State :=
  let s1 := match intervalRef s with
            | Some h => set_intervalRef None (clearInterval h s)
            | None => s
            end in
  set_isRunning false s1.

(** [resetStopwatch], App.tsx lines 148-158. *)
Definition resetStopwatch (s : State) : State :=
  let s1 := match intervalRef s with
            | Some h => set_intervalRef None (clearInterval h s)
            | None => s
            end in
  set_lapCounter 1 (set_lapTimes [] (set_isRunning false (set_time 0 s1))).

(** The entry built by [recordLap], App.tsx lines 162-167.  [last] is
    [lapTimes[lapTimes.length - 1]], present exactly when
    [lapTimes.length > 0]. *)
Definition newLap (s : State) : LapTime :=
  {| id := now s;
     lapNumber := lapCounter s;
     lapTime := match last (lapTimes s) with
                | Some l => time s - totalTime l
                | None => time s
                end;
     totalTime := time s |}.

(** [recordLap], App.tsx lines 160-172. *)
Definition recordLap (s : State) : State :=
  if isRunning s && (0 <? time s) then
    set_lapCounter (lapCounter s + 1)
                   (set_lapTimes (lapTimes s ++ [newLap s]) s)
  else s.

(** [clearLaps], App.tsx lines 174-178. *)
Definition clearLaps (s : State) : State :=
  set_lapCounter 1 (set_lapTimes [] s).

(** The cleanup of the last effect, App.tsx lines 210-216, run when the
    component is torn down. *)
Definition unmount (s : State) : State :=
  match intervalRef s with
  | Some h => clearInterval h s
  | None => s
  end.

(* ================================================================== *)
(** ** Events and runs *)
(* ================================================================== *)

(** What can happen to a mounted component: the wall clock moves, a
    timer fires, or one of the five commands is issued. *)
Inductive Event :=
| Clock (t : Z)
| Tick (h : positive)
| Start (h : positive)
| Pause
| Reset
| Lap
| Clear.

Definition handle (e : Event) (s : State) : State :=
  match e with
  | Clock t => set_now t s
  | Tick h => tick h s
  | Start h => startStopwatch h s
  | Pause => pauseStopwatch s
  | Reset => resetStopwatch s
  | Lap => recordLap s
  | Clear => clearLaps s
  end.

Definition run (tr : list Event) (s : State) : State :=
  fold_left (fun s e => handle e s) tr s.

(** States the component can be in after mounting. *)
Inductive reachable : State -> Prop :=
| reachable_initial t0 : reachable (initial t0)
| reachable_handle e s : reachable s -> reachable (handle e s).

(** The wall clock never runs backwards along [tr], starting at [c]. *)
Fixpoint clock_monotone (c : Z) (tr : list Event) : bool :=
  match tr with
  | [] => true
  | Clock t :: tr' => (c <=? t) && clock_monotone t tr'
  | _ :: tr' => clock_monotone c tr'
  end.

(* ================================================================== *)
(** ** Properties of states and lap histories *)
(* ================================================================== *)

(** ElapsedTime, RunState, LapHistory and the sequence counter. *)
Definition core (s : State) : Z * bool * list LapTime * Z :=
  (time s, isRunning s, lapTimes s, lapCounter s).

(** Sum of the split durations of a history. *)
Definition sum_lapTime (l : list LapTime) : Z :=
  foldr (fun e acc => lapTime e + acc) 0 l.

(** Cumulative duration of the last entry, 0 for the empty history. *)
Definition last_totalTime (l : list LapTime) : Z :=
  match last l with
  | Some e => totalTime e
  | None => 0
  end.

Definition strictly_increasing (l : list LapTime) : Prop :=
  forall (i j : nat) (a b : LapTime),
    (i < j)%nat -> l !! i = Some a -> l !! j = Some b ->
    totalTime a < totalTime b.

Definition non_decreasing (l : list LapTime) : Prop :=
  forall (i j : nat) (a b : LapTime),
    (i < j)%nat -> l !! i = Some a -> l !! j = Some b ->
    totalTime a <= totalTime b.

(** The entry at index [i] carries lap number [i + 1]. *)
Definition numbered (l : list LapTime) : Prop :=
  forall (i : nat) (e : LapTime),
    l !! i = Some e -> lapNumber e = Z.of_nat i + 1.

(** Counter and history move together. *)
Definition counter_in_step (s : State) : Prop :=
  lapCounter s = Z.of_nat (length (lapTimes s)) + 1 /\ numbered (lapTimes s).

(** The only live sampling timer is the one [intervalRef] holds, and it
    is held exactly while running. *)
Definition timer_discipline (s : State) : Prop :=
  timers s = match intervalRef s with
             | Some h => {[ h ]}
             | None => ∅
             end
  /\ isRunning s = match intervalRef s with
                   | Some _ => true
                   | None => false
                   end.

(** While the clock does not run backwards: a running stopwatch has not
    sampled past the clock, no entry is later than the elapsed time, and
    the history is in order. *)
Definition in_order (s : State) : Prop :=
  (isRunning s = true -> time s + startTimeRef s <= now s)
  /\ (forall e : LapTime, e ∈ lapTimes s -> totalTime e <= time s)
  /\ non_decreasing (lapTimes s).

(** Events of the environment alone: no command is issued. *)
Definition is_env (e : Event) : bool :=
  match e with
  | Clock _ | Tick _ => true
  | _ => false
  end.

(** Events that leave a running stopwatch running. *)
Definition keeps_running (e : Event) : bool :=
  match e with
  | Pause | Reset => false
  | _ => true
  end.

(** Two states that agree on everything but the origin of the clock. *)
Definition same_behaviour (s1 s2 : State) : Prop :=
  time s1 = time s2 /\ isRunning s1 = isRunning s2
  /\ lapTimes s1 = lapTimes s2 /\ lapCounter s1 = lapCounter s2
  /\ intervalRef s1 = intervalRef s2 /\ now s1 = now s2
  /\ timers s1 = timers s2.

(** [same_behaviour], and the same origin as soon as a timer can fire. *)
Definition same_course (s1 s2 : State) : Prop :=
  same_behaviour s1 s2
  /\ (timers s1 <> ∅ -> startTimeRef s1 = startTimeRef s2).

(* ================================================================== *)
(** ** Keyboard shortcuts and rendered controls *)
(* ================================================================== *)

(** The fields of a [KeyboardEvent] that [handleKeyPress] reads. *)
Record KeyboardEvent := mkKey {
  code : string;
  ctrlKey : bool;
  metaKey : bool
}.

(** [handleKeyPress], App.tsx lines 181-204.  The result is the state
    after the key and whether [event.preventDefault()] was called; [h]
    is the handle [setInterval] returns should the key start the
    stopwatch. *)
Definition handleKeyPress (event : KeyboardEvent) (h : positive) (s : State)
  : State * bool :=
  if String.eqb (code event) "Space" then
    (if isRunning s then pauseStopwatch s else startStopwatch h s, true)
  else if String.eqb (code event) "KeyR" then
    if ctrlKey event || metaKey event then (resetStopwatch s, true)
    else (s, false)
  else if String.eqb (code event) "KeyL" then
    if ctrlKey event || metaKey event then (recordLap s, true)
    else (s, false)
  else (s, false).

(** [onClick] of the main button, App.tsx line 325. *)
Definition mainButtonClick (h : positive) (s : State) : State :=
  if isRunning s then pauseStopwatch s else startStopwatch h s.

(** [disabled] of the Lap button, App.tsx line 351. *)
Definition lapButtonDisabled (s : State) : bool :=
  negb (isRunning s) || (time s =? 0).

(** [disabled] of the Clear button, App.tsx line 361. *)
Definition clearButtonDisabled (s : State) : bool :=
  Z.of_nat (length (lapTimes s)) =? 0.

(** The time display, App.tsx line 312. *)
Definition timeDisplay (s : State) : string := formatTime (time s).

(** One row element built for the lap list, App.tsx lines 381-403: its
    React key and the three expressions it carries (after the fixed
    texts "Lap " and "Total: "). *)
Record LapRow := mkRow {
  rowKey : Z;
  rowNumber : Z;
  rowLapTime : string;
  rowTotalTime : string
}.

Definition lapRow (lap : LapTime) : LapRow :=
  {| rowKey := id lap;
     rowNumber := lapNumber lap;
     rowLapTime := formatTime (lapTime lap);
     rowTotalTime := formatTime (totalTime lap) |}.

(** The array of row elements the render hands to React for the lap
    list, App.tsx lines 378-404: [lapTimes.slice().reverse().map(...)].
    This is the value of the JSX expression, not the list on screen:
    React reconciles the array with the previous one by [key], a step
    that is not modelled here and that, when two elements share a key,
    need not show exactly these rows. *)
Definition lapRows (s : State) : list LapRow :=
  lapRow <$> reverse (lapTimes s).

(* ================================================================== *)
(** ** Reading a displayed time back *)
(* ================================================================== *)

(** Cut [s] at the first occurrence of the character [c]. *)
Fixpoint split_at (c : ascii) (s : string) : option (string * string) :=
  match s with
  | EmptyString => None
  | String x r =>
      if Ascii.eqb x c then Some (EmptyString, r)
      else match split_at c r with
           | Some (a, b) => Some (String x a, b)
           | None => None
           end
  end.

(** The number of milliseconds a string of the shape [MM:SS.CC] stands
    for; [None] when the string has another shape. *)
Definition parseTime (s : string) : option Z :=
  match split_at ":" s with
  | Some (mm, r) =>
      match split_at "." r with
      | Some (ss, cc) =>
          if all_digits mm && all_digits ss && all_digits cc then
            Some (60000 * decimal_value mm + 1000 * decimal_value ss
                  + 10 * decimal_value cc)
          else None
      | None => None
      end
  | None => None
  end.

(** Events that leave a stopped stopwatch stopped and not reset. *)
Definition keeps_stopped (e : Event) : bool :=
  match e with
  | Start _ | Reset => false
  | _ => true
  end.

(** Each entry after the first records the step from the previous
    total; the first records its own total. *)
Definition steps_between (l : list LapTime) : Prop :=
  (forall a : LapTime, l !! 0%nat = Some a -> lapTime a = totalTime a)
  /\ (forall (i : nat) (a b : LapTime),
        l !! i = Some a -> l !! S i = Some b ->
        lapTime b = totalTime b - totalTime a).

(* ================================================================== *)
(** ** Decimal printing *)
(* ================================================================== *)

Section Decimal.

Lemma string_length_app (a b : string) :
  String.length (a +:+ b) = (String.length a + String.length b)%nat.
Proof. induction a as [|c a IH]; simpl; [done | by rewrite IH]. Qed.

Lemma all_digits_app (a b : string) :
  all_digits (a +:+ b) = all_digits a && all_digits b.
Proof.
  induction a as [|c a IH]; simpl; [done |].
  by rewrite IH, andb_assoc.
Qed.

Lemma value_from_app (a b : string) (acc : Z) :
  value_from acc (a +:+ b) = value_from (value_from acc a) b.
Proof. revert acc. induction a as [|c a IH]; intros acc; simpl; auto. Qed.

Lemma digit_val_char (d : Z) : 0 <= d <= 9 -> digit_val (JS.digit_char d) = d.
Proof.
  intros Hd. unfold digit_val, JS.digit_char.
  rewrite nat_ascii_embedding by lia. lia.
Qed.

Lemma is_digit_char (d : Z) : 0 <= d <= 9 -> is_digit (JS.digit_char d) = true.
Proof.
  intros Hd. unfold is_digit. rewrite digit_val_char by done.
  apply andb_true_intro; split; lia.
Qed.

(** Any two amounts of fuel that cover [n] give the same digits. *)
Lemma digits_fuel_enough (f1 : nat) :
  forall (f2 : nat) (n : Z),
    0 <= n -> n < 2 ^ Z.of_nat (S f1) -> n < 2 ^ Z.of_nat (S f2) ->
    JS.digits_fuel (S f1) n = JS.digits_fuel (S f2) n.
Proof.
  induction f1 as [|f1 IH]; intros f2 n Hn H1 H2.
  { change (n < 2) in H1. simpl.
    destruct (Z.ltb_spec n 10) as [Hlt | Hge]; [done | lia]. }
  cbn [JS.digits_fuel].
  destruct (Z.ltb_spec n 10) as [Hlt | Hge]; [done |].
  destruct f2 as [|f2]; [change (n < 2) in H2; lia |].
  f_equal.
  rewrite Nat2Z.inj_succ, Z.pow_succ_r in H1, H2 by lia.
  apply IH.
  - apply Z.div_pos; lia.
  - apply Z.div_lt_upper_bound; lia.
  - apply Z.div_lt_upper_bound; lia.
Qed.

Lemma digits_fuel_covers (n : Z) :
  0 <= n -> n < 2 ^ Z.of_nat (S (Z.to_nat (Z.log2 n))).
Proof.
  intros Hn. rewrite Nat2Z.inj_succ, Z2Nat.id by apply Z.log2_nonneg.
  destruct (Z.eq_dec n 0) as [-> | Hne]; [done |].
  apply Z.log2_spec. lia.
Qed.

(** The defining equation of [digits], free of fuel. *)
Lemma digits_unfold (n : Z) :
  0 <= n ->
  JS.digits n =
    (if n <? 10 then "" else JS.digits (n / 10))
      +:+ String (JS.digit_char (n mod 10)) "".
Proof.
  intros Hn. unfold JS.digits at 1. cbn [JS.digits_fuel].
  destruct (Z.ltb_spec n 10) as [Hlt | Hge]; [done |].
  f_equal. unfold JS.digits.
  assert (0 <= n / 10) by (apply Z.div_pos; lia).
  pose proof (digits_fuel_covers n Hn) as Hc.
  assert (1 <= Z.log2 n) by (apply Z.log2_le_pow2; lia).
  destruct (Z.to_nat (Z.log2 n)) as [|k] eqn:Hk; [lia |].
  apply digits_fuel_enough; [done | | by apply digits_fuel_covers].
  rewrite Nat2Z.inj_succ, Z.pow_succ_r in Hc by lia.
  apply Z.div_lt_upper_bound; lia.
Qed.

Lemma digits_small (n : Z) :
  0 <= n < 10 -> JS.digits n = String (JS.digit_char n) "".
Proof.
  intros Hn. rewrite digits_unfold by lia.
  destruct (Z.ltb_spec n 10); [| lia].
  by rewrite Z.mod_small by lia.
Qed.

Lemma digits_large (n : Z) :
  10 <= n ->
  JS.digits n = JS.digits (n / 10) +:+ String (JS.digit_char (n mod 10)) "".
Proof.
  intros Hn. rewrite digits_unfold by lia.
  destruct (Z.ltb_spec n 10); [lia | done].
Qed.

(** Printing then reading gives the number back, and only digits are
    printed. *)
Lemma digits_spec (n : Z) :
  0 <= n ->
  all_digits (JS.digits n) = true /\
  (forall acc, value_from acc (JS.digits n) = 10 ^ Z.of_nat (String.length (JS.digits n)) * acc + n) /\
  (1 <= String.length (JS.digits n))%nat.
Proof.
  intros Hn. pattern n. apply Zlt_0_ind; [| done]. clear n Hn.
  intros n IH Hn.
  assert (Hm : 0 <= n mod 10 <= 9) by (pose proof (Z.mod_pos_bound n 10); lia).
  destruct (Z.lt_ge_cases n 10) as [Hlt | Hge].
  - rewrite digits_small by lia.
    cbn [all_digits value_from String.length].
    rewrite is_digit_char by lia. repeat split; [| lia].
    intros acc. rewrite digit_val_char by lia.
    change (Z.of_nat 1) with 1. lia.
  - rewrite digits_large by done.
    assert (Hq : 0 <= n / 10 < n).
    { split; [apply Z.div_pos; lia | apply Z.div_lt_upper_bound; lia]. }
    destruct (IH (n / 10) Hq) as (Hd & Hv & Hl).
    rewrite all_digits_app, string_length_app.
    cbn [all_digits String.length].
    rewrite Hd, is_digit_char by lia. repeat split; [| lia].
    intros acc. rewrite value_from_app, Hv.
    cbn [value_from]. rewrite digit_val_char by lia.
    rewrite Nat2Z.inj_add, Z.pow_add_r by lia.
    pose proof (Z.div_mod n 10). change (Z.of_nat 1) with 1. lia.
Qed.

End Decimal.

(* ================================================================== *)
(** ** [formatTime] *)
(* ================================================================== *)

Section Format.

Lemma digits_value (n : Z) : 0 <= n -> decimal_value (JS.digits n) = n.
Proof.
  intros Hn. destruct (digits_spec n Hn) as (_ & Hv & _).
  unfold decimal_value. rewrite Hv. lia.
Qed.

Lemma digits_length_1 (n : Z) :
  0 <= n < 10 -> String.length (JS.digits n) = 1%nat.
Proof. intros Hn. by rewrite digits_small. Qed.

Lemma digits_length_2 (n : Z) :
  10 <= n < 100 -> String.length (JS.digits n) = 2%nat.
Proof.
  intros Hn. rewrite digits_large, string_length_app by lia.
  rewrite digits_length_1; [done |].
  split; [apply Z.div_pos; lia | apply Z.div_lt_upper_bound; lia].
Qed.

Lemma digits_length_3 (n : Z) :
  100 <= n -> (3 <= String.length (JS.digits n))%nat.
Proof.
  intros Hn.
  assert (10 <= n / 10) by (apply Z.div_le_lower_bound; lia).
  assert (0 <= n / 10 / 10) by (apply Z.div_pos; lia).
  rewrite digits_large, string_length_app by lia.
  rewrite digits_large, string_length_app by lia.
  destruct (digits_spec (n / 10 / 10)) as (_ & _ & Hl); [done |].
  cbn [String.length]. lia.
Qed.

Lemma leading_zero_app (a b : string) :
  (1 <= String.length a)%nat -> leading_zero (a +:+ b) = leading_zero a.
Proof. destruct a; simpl; [lia | done]. Qed.

(** A positive number is printed without a zero in front. *)
Lemma digits_no_leading_zero (n : Z) :
  0 <= n -> 1 <= n -> leading_zero (JS.digits n) = false.
Proof.
  intros Hn. pattern n. apply Zlt_0_ind; [| done]. clear n Hn.
  intros n IH Hn H1.
  destruct (Z.lt_ge_cases n 10) as [Hlt | Hge].
  - rewrite digits_small by lia. cbn [leading_zero].
    apply bool_decide_eq_false_2. intros Heq.
    assert (Hv : digit_val (JS.digit_char n) = 0) by (by rewrite Heq).
    rewrite digit_val_char in Hv by lia. lia.
  - assert (1 <= n / 10) by (apply Z.div_le_lower_bound; lia).
    assert (n / 10 < n) by (apply Z.div_lt_upper_bound; lia).
    rewrite digits_large by done.
    destruct (digits_spec (n / 10)) as (_ & _ & Hl); [lia |].
    rewrite leading_zero_app by done. apply IH; lia.
Qed.

(** [padStart(2, '0')] on a printed number below 100: exactly two
    digits that read the number back. *)
Lemma pad2_small (n : Z) :
  0 <= n < 100 ->
  let s := JS.padStart 2 "0" (JS.toString n) in
  all_digits s = true /\ decimal_value s = n /\ String.length s = 2%nat.
Proof.
  intros Hn. unfold JS.toString.
  destruct (Z.ltb_spec n 0) as [? | _]; [lia |].
  destruct (digits_spec n) as (Hd & _ & _); [lia |].
  destruct (Z.lt_ge_cases n 10) as [Hlt | Hge].
  - assert (Hp : JS.padStart 2 "0" (JS.digits n)
                 = String "0" (String (JS.digit_char n) "")).
    { unfold JS.padStart. rewrite digits_length_1 by lia.
      by rewrite digits_small by lia. }
    rewrite Hp. unfold decimal_value.
    cbn [all_digits value_from String.length].
    rewrite is_digit_char, digit_val_char by lia. done.
  - unfold JS.padStart. rewrite digits_length_2 by lia.
    cbn [Nat.leb]. rewrite Hd, digits_value, digits_length_2 by lia. done.
Qed.

(** Above 99 [padStart] adds nothing. *)
Lemma pad2_large (n : Z) :
  100 <= n -> JS.padStart 2 "0" (JS.toString n) = JS.digits n.
Proof.
  intros Hn. unfold JS.toString, JS.padStart.
  destruct (Z.ltb_spec n 0) as [? | _]; [lia |].
  pose proof (digits_length_3 n Hn) as Hl.
  destruct (Nat.leb_spec 2 (String.length (JS.digits n))); [done | lia].
Qed.

End Format.

(** C3. For every non-negative integer [t], [formatTime t] reads
    [MM:SS.CC]: [MM] is [t / 60000] on two digits (more past 99
    minutes), [SS] is [(t mod 60000) / 1000] on two digits and [CC] is
    [(t mod 1000) / 10] on two digits, every quotient truncated; and
    [formatTime 61005 = "01:01.00"], [formatTime 999 = "00:00.99"]. *)
Theorem formatTime_MM_SS_CC :
  (forall t : Z, 0 <= t -> reads_MM_SS_CC t (formatTime t))
  /\ formatTime 61005 = "01:01.00"
  /\ formatTime 999 = "00:00.99".
Proof.
  split; [| by vm_compute].
  intros t Ht. unfold formatTime.
  rewrite !Z.rem_mod_nonneg by lia.
  assert (Hs : 0 <= (t mod 60000) / 1000 < 100).
  { pose proof (Z.mod_pos_bound t 60000).
    split; [apply Z.div_pos; lia | apply Z.div_lt_upper_bound; lia]. }
  assert (Hc : 0 <= (t mod 1000) / 10 < 100).
  { pose proof (Z.mod_pos_bound t 1000).
    split; [apply Z.div_pos; lia | apply Z.div_lt_upper_bound; lia]. }
  assert (Hm : 0 <= t / 60000) by (apply Z.div_pos; lia).
  destruct (pad2_small _ Hs) as (Hs1 & Hs2 & Hs3).
  destruct (pad2_small _ Hc) as (Hc1 & Hc2 & Hc3).
  exists (JS.padStart 2 "0" (JS.toString (t / 60000))),
         (JS.padStart 2 "0" (JS.toString (t mod 60000 / 1000))),
         (JS.padStart 2 "0" (JS.toString (t mod 1000 / 10))).
  split; [done |].
  destruct (Z.lt_ge_cases (t / 60000) 100) as [Hlt | Hge].
  - destruct (pad2_small (t / 60000)) as (Hm1 & Hm2 & Hm3); [lia |].
    repeat split; try done; try lia.
  - rewrite pad2_large by done.
    destruct (digits_spec (t / 60000) Hm) as (Hd & _ & _).
    pose proof (digits_length_3 _ Hge).
    repeat split; try done; try lia.
    + by apply digits_value.
    + apply digits_no_leading_zero; lia.
Qed.

Lemma formatTime_MM_SS_CC_witness :
  0 <= 6754321 /\ reads_MM_SS_CC 6754321 (formatTime 6754321).
Proof.
  split; [lia |]. apply (proj1 formatTime_MM_SS_CC 6754321). lia.
Defined.

(* ================================================================== *)
(** ** Runs and invariants *)
(* ================================================================== *)

Section Runs.

Lemma run_app (tr1 tr2 : list Event) (s : State) :
  run (tr1 ++ tr2) s = run tr2 (run tr1 s).
Proof. unfold run. apply fold_left_app. Qed.

Lemma run_cons (e : Event) (tr : list Event) (s : State) :
  run (e :: tr) s = run tr (handle e s).
Proof. done. Qed.

(** A property kept by every event is kept by every run. *)
Lemma run_invariant (P : State -> Prop) :
  (forall e s, P s -> P (handle e s)) ->
  forall tr s, P s -> P (run tr s).
Proof.
  intros Hstep tr. induction tr as [|e tr IH]; intros s Hs; [done |].
  rewrite run_cons. apply IH, Hstep, Hs.
Qed.

Lemma reachable_run (tr : list Event) (s : State) :
  reachable s -> reachable (run tr s).
Proof. apply run_invariant. intros e s'. apply reachable_handle. Qed.

Lemma reachable_invariant (P : State -> Prop) :
  (forall t0, P (initial t0)) ->
  (forall e s, P s -> P (handle e s)) ->
  forall s, reachable s -> P s.
Proof. intros Hi Hs s Hr. induction Hr; auto. Qed.

Lemma reachable_trace (s : State) :
  reachable s <-> exists t0 tr, s = run tr (initial t0).
Proof.
  split.
  - induction 1 as [t0 | e s _ (t0 & tr & ->)].
    + by exists t0, [].
    + exists t0, (tr ++ [e]). by rewrite run_app.
  - intros (t0 & tr & ->). apply reachable_run, reachable_initial.
Qed.

End Runs.

(* ================================================================== *)
(** ** Timers *)
(* ================================================================== *)

Section Timers.

Lemma tick_live (h : positive) (s : State) :
  h ∈ timers s -> tick h s = set_time (now s - startTimeRef s) s.
Proof. intros Hh. unfold tick. by rewrite bool_decide_eq_true_2. Qed.

Lemma tick_dead (h : positive) (s : State) :
  h ∉ timers s -> tick h s = s.
Proof. intros Hh. unfold tick. by rewrite bool_decide_eq_false_2. Qed.

Lemma timer_discipline_handle (e : Event) (s : State) :
  timer_discipline s -> timer_discipline (handle e s).
Proof.
  unfold timer_discipline. intros [Ht Hr].
  destruct e as [t | h | h | | | |]; simpl; try done.
  - unfold tick. destruct (bool_decide (h ∈ timers s)); done.
  - unfold startStopwatch. destruct (isRunning s) eqn:Hrun; simpl.
    { split; [done | congruence]. }
    split; [| done]. rewrite Ht.
    destruct (intervalRef s) as [h' |]; [done | apply union_empty_r_L].
  - unfold pauseStopwatch.
    destruct (intervalRef s) as [h |] eqn:Href; simpl; rewrite ?Href; [| done].
    split; [| done]. rewrite Ht. apply difference_diag_L.
  - unfold resetStopwatch.
    destruct (intervalRef s) as [h |] eqn:Href; simpl; rewrite ?Href; [| done].
    split; [| done]. rewrite Ht. apply difference_diag_L.
  - unfold recordLap. destruct (isRunning s && (0 <? time s)); done.
Qed.

Lemma timer_discipline_reachable (s : State) :
  reachable s -> timer_discipline s.
Proof.
  apply reachable_invariant; [done |]. apply timer_discipline_handle.
Qed.

(** While the stopwatch is stopped no sampling timer is live. *)
Lemma stopped_no_timer (s : State) :
  timer_discipline s -> isRunning s = false ->
  intervalRef s = None /\ timers s = ∅.
Proof.
  intros [Ht Hr] Hstop. rewrite Hstop in Hr.
  destruct (intervalRef s) as [h |]; done.
Qed.

End Timers.

(* ================================================================== *)
(** ** Lap bookkeeping *)
(* ================================================================== *)

Section Laps.

Lemma recordLap_records (s : State) :
  isRunning s = true -> 0 < time s ->
  recordLap s =
    set_lapCounter (lapCounter s + 1)
                   (set_lapTimes (lapTimes s ++ [newLap s]) s).
Proof.
  intros Hr Ht. unfold recordLap. rewrite Hr.
  by destruct (Z.ltb_spec 0 (time s)); [| lia].
Qed.

Lemma recordLap_stopped (s : State) :
  isRunning s = false -> recordLap s = s.
Proof. intros Hr. unfold recordLap. by rewrite Hr. Qed.

Lemma recordLap_not_started (s : State) :
  time s <= 0 -> recordLap s = s.
Proof.
  intros Ht. unfold recordLap.
  destruct (Z.ltb_spec 0 (time s)); [lia |]. by rewrite andb_false_r.
Qed.

(** [recordLap] either appends [newLap] or does nothing. *)
Lemma recordLap_cases (s : State) :
  (isRunning s = true /\ 0 < time s /\
   recordLap s = set_lapCounter (lapCounter s + 1)
                   (set_lapTimes (lapTimes s ++ [newLap s]) s))
  \/ recordLap s = s.
Proof.
  destruct (isRunning s) eqn:Hr; [| right; by apply recordLap_stopped].
  destruct (Z.lt_ge_cases 0 (time s)).
  - left. repeat split; [done |]. by apply recordLap_records.
  - right. apply recordLap_not_started. lia.
Qed.

Lemma startStopwatch_running (h : positive) (s : State) :
  isRunning s = true -> startStopwatch h s = s.
Proof. intros Hr. unfold startStopwatch. by rewrite Hr. Qed.

Lemma newLap_lapTime (s : State) :
  lapTime (newLap s) = time s - last_totalTime (lapTimes s).
Proof.
  unfold newLap, last_totalTime. simpl.
  destruct (last (lapTimes s)); lia.
Qed.

Lemma numbered_nil : numbered [].
Proof. intros i e Hi. by rewrite lookup_nil in Hi. Qed.

Lemma numbered_snoc (l : list LapTime) (e : LapTime) :
  numbered l -> lapNumber e = Z.of_nat (length l) + 1 -> numbered (l ++ [e]).
Proof.
  intros Hl He i x Hi.
  destruct (decide (i < length l)%nat) as [Hlt | Hge].
  - rewrite lookup_app_l in Hi by done. by apply Hl.
  - rewrite lookup_app_r in Hi by lia.
    destruct (i - length l)%nat as [|k] eqn:Hk; [| done].
    injection Hi as <-. rewrite He. f_equal. lia.
Qed.

Lemma counter_in_step_handle (e : Event) (s : State) :
  counter_in_step s -> counter_in_step (handle e s).
Proof.
  unfold counter_in_step. intros [Hc Hn].
  destruct e as [t | h | h | | | |]; cbn [handle].
  - done.
  - unfold tick. by destruct (bool_decide (h ∈ timers s)).
  - unfold startStopwatch. by destruct (isRunning s).
  - unfold pauseStopwatch. by destruct (intervalRef s).
  - unfold resetStopwatch.
    destruct (intervalRef s); simpl; (split; [done | apply numbered_nil]).
  - destruct (recordLap_cases s) as [(_ & _ & ->) | ->]; [| done]. simpl.
    split.
    + rewrite length_app. simpl. lia.
    + by apply numbered_snoc.
  - simpl. split; [done | apply numbered_nil].
Qed.

Lemma counter_in_step_reachable (s : State) :
  reachable s -> counter_in_step s.
Proof.
  apply reachable_invariant; [| apply counter_in_step_handle].
  intros t0. split; [done | apply numbered_nil].
Qed.

(** After the counter is back at 1 on an empty history, whatever
    happens next, the first entry of the history is lap 1. *)
Lemma first_lap_is_1 (s : State) (tr : list Event) (e : LapTime) :
  lapTimes s = [] -> lapCounter s = 1 ->
  head (lapTimes (run tr s)) = Some e -> lapNumber e = 1.
Proof.
  intros Hl Hc He.
  assert (Hs : counter_in_step (run tr s)).
  { apply run_invariant; [apply counter_in_step_handle |].
    split; [by rewrite Hl, Hc | rewrite Hl; apply numbered_nil]. }
  destruct Hs as [_ Hn]. apply (Hn 0%nat e).
  by rewrite <- head_lookup.
Qed.

End Laps.

(* ================================================================== *)
(** ** Recording laps *)
(* ================================================================== *)

(** One sampling round followed by a lap command on a running
    stopwatch: the clock reads [t], timer [h] fires, a lap is taken. *)
Lemma sample_then_lap (h : positive) (t : Z) (s : State) :
  isRunning s = true -> h ∈ timers s -> 0 < t - startTimeRef s ->
  run [Clock t; Tick h; Lap] s =
    mkState (t - startTimeRef s) true
            (lapTimes s ++
               [mkLap t (lapCounter s)
                      (t - startTimeRef s - last_totalTime (lapTimes s))
                      (t - startTimeRef s)])
            (intervalRef s) (startTimeRef s) (lapCounter s + 1) t (timers s).
Proof.
  intros Hr Hh Ht. cbn [run fold_left handle].
  rewrite tick_live by done.
  rewrite recordLap_records by (simpl; done).
  unfold newLap, last_totalTime. cells. rewrite Hr.
  destruct (last (lapTimes s)); [done | by rewrite Z.sub_0_r].
Qed.

(** C2. On a reachable state that is running with a strictly positive
    elapsed time, [recordLap] appends exactly one entry: its lap number
    is the previous number of entries plus 1, its total time is the
    elapsed time, and its lap time is the elapsed time minus the total
    time of the last entry (minus 0 on an empty history); nothing else
    but the counter changes.  Three laps sampled at 1000, 2500 and 4000
    ms after the start have lap times 1000, 1500, 1500 and lap numbers
    1, 2, 3. *)
Theorem recordLap_appends_entry :
  (forall s : State,
      reachable s -> isRunning s = true -> 0 < time s ->
      exists e : LapTime,
        lapTimes (recordLap s) = lapTimes s ++ [e]
        /\ lapNumber e = Z.of_nat (length (lapTimes s)) + 1
        /\ totalTime e = time s
        /\ lapTime e = time s - last_totalTime (lapTimes s)
        /\ recordLap s
           = set_lapCounter (lapCounter s + 1)
                            (set_lapTimes (lapTimes s ++ [e]) s))
  /\ (forall (t0 : Z) (h : positive),
        let s := run [Start h;
                      Clock (t0 + 1000); Tick h; Lap;
                      Clock (t0 + 2500); Tick h; Lap;
                      Clock (t0 + 4000); Tick h; Lap] (initial t0) in
        lapTime <$> lapTimes s = [1000; 1500; 1500]
        /\ lapNumber <$> lapTimes s = [1; 2; 3]
        /\ totalTime <$> lapTimes s = [1000; 2500; 4000]).
Proof.
  split.
  - intros s Hreach Hr Ht. exists (newLap s).
    destruct (counter_in_step_reachable s Hreach) as [Hc _].
    rewrite recordLap_records by done. simpl.
    repeat split; [done | apply newLap_lapTime].
  - intros t0 h s. subst s.
    rewrite run_cons.
    rewrite (run_app [Clock (t0 + 1000); Tick h; Lap]
               [Clock (t0 + 2500); Tick h; Lap;
                Clock (t0 + 4000); Tick h; Lap]).
    rewrite (run_app [Clock (t0 + 2500); Tick h; Lap]
               [Clock (t0 + 4000); Tick h; Lap]).
    assert (Hs : handle (Start h) (initial t0)
                 = mkState 0 true [] (Some h) (t0 - 0) 1 t0 ({[ h ]} ∪ ∅))
      by done.
    rewrite Hs.
    rewrite (sample_then_lap h (t0 + 1000)); [| done | set_solver | simpl; lia].
    rewrite (sample_then_lap h (t0 + 2500)); [| done | set_solver | simpl; lia].
    rewrite (sample_then_lap h (t0 + 4000)); [| done | set_solver | simpl; lia].
    unfold last_totalTime. cbn [lapTimes fmap list_fmap app last totalTime
                                lapTime lapNumber startTimeRef lapCounter].
    repeat split; repeat f_equal; lia.
Qed.

Lemma recordLap_appends_entry_witness :
  let s := run [Start 1%positive; Clock 1000; Tick 1%positive; Lap;
                Clock 2500; Tick 1%positive] (initial 0) in
  reachable s /\ isRunning s = true /\ 0 < time s
  /\ exists e : LapTime,
       lapTimes (recordLap s) = lapTimes s ++ [e]
       /\ lapNumber e = Z.of_nat (length (lapTimes s)) + 1
       /\ totalTime e = time s
       /\ lapTime e = time s - last_totalTime (lapTimes s)
       /\ recordLap s
          = set_lapCounter (lapCounter s + 1)
                           (set_lapTimes (lapTimes s ++ [e]) s).
Proof.
  intros s.
  assert (Hreach : reachable s) by apply reachable_run, reachable_initial.
  assert (Hr : isRunning s = true) by reflexivity.
  assert (Ht : 0 < time s) by (vm_compute; reflexivity).
  split; [exact Hreach |]. split; [exact Hr |]. split; [exact Ht |].
  exact (proj1 recordLap_appends_entry s Hreach Hr Ht).
Defined.

(** C9. In every reachable state the lap counter is the number of
    entries plus 1 and the entry at index [i] has lap number [i + 1];
    [recordLap], [clearLaps] and [resetStopwatch] each keep counter and
    history in step. *)
Theorem lapCounter_in_step :
  (forall s : State,
      reachable s ->
      lapCounter s = Z.of_nat (length (lapTimes s)) + 1
      /\ forall (i : nat) (e : LapTime),
           lapTimes s !! i = Some e -> lapNumber e = Z.of_nat i + 1)
  /\ (forall s : State,
        counter_in_step s ->
        counter_in_step (recordLap s)
        /\ counter_in_step (clearLaps s)
        /\ counter_in_step (resetStopwatch s)).
Proof.
  split.
  - intros s Hreach. apply (counter_in_step_reachable s Hreach).
  - intros s Hs. split; [| split].
    + apply (counter_in_step_handle Lap s Hs).
    + apply (counter_in_step_handle Clear s Hs).
    + apply (counter_in_step_handle Reset s Hs).
Qed.

Lemma lapCounter_in_step_witness :
  let s := run [Start 1%positive; Clock 1000; Tick 1%positive; Lap;
                Clock 2500; Tick 1%positive; Lap] (initial 0) in
  (reachable s
   /\ lapCounter s = 3
   /\ lapTimes s !! 1%nat = Some (mkLap 2500 2 1500 2500)
   /\ lapNumber (mkLap 2500 2 1500 2500) = Z.of_nat 1 + 1)
  /\ (counter_in_step s
      /\ counter_in_step (recordLap s)
      /\ counter_in_step (clearLaps s)
      /\ counter_in_step (resetStopwatch s)).
Proof.
  intros s.
  assert (Hreach : reachable s) by apply reachable_run, reachable_initial.
  assert (Hl : lapTimes s !! 1%nat = Some (mkLap 2500 2 1500 2500))
    by (vm_compute; reflexivity).
  assert (Hc : counter_in_step s).
  { split; [reflexivity |].
    intros [|[|i]] e He; vm_compute in He;
      [injection He as <-; reflexivity .. | discriminate]. }
  split.
  - split; [exact Hreach |].
    split; [exact (proj1 (proj1 lapCounter_in_step s Hreach)) |].
    split; [exact Hl |].
    exact (proj2 (proj1 lapCounter_in_step s Hreach) 1%nat _ Hl).
  - split; [exact Hc |].
    exact (proj2 lapCounter_in_step s Hc).
Defined.

(** C10. When a lap is commanded on a running stopwatch whose elapsed
    time is strictly positive and equal to the total time of the last
    entry, a further entry is appended all the same, with lap time 0 and
    the total time of the previous entry; so two lap commands with no
    sample in between leave two entries with the same total time. *)
Theorem recordLap_clock_not_advanced :
  (forall (s : State) (e : LapTime),
      isRunning s = true -> 0 < time s ->
      last (lapTimes s) = Some e -> totalTime e = time s ->
      exists e' : LapTime,
        lapTimes (recordLap s) = lapTimes s ++ [e']
        /\ lapTime e' = 0
        /\ totalTime e' = totalTime e)
  /\ (forall s : State,
        isRunning s = true -> 0 < time s ->
        exists e1 e2 : LapTime,
          lapTimes (recordLap (recordLap s)) = lapTimes s ++ [e1; e2]
          /\ totalTime e1 = time s
          /\ lapTime e2 = 0
          /\ totalTime e2 = totalTime e1).
Proof.
  assert (Hone : forall (s : State) (e : LapTime),
             isRunning s = true -> 0 < time s ->
             last (lapTimes s) = Some e -> totalTime e = time s ->
             lapTimes (recordLap s) = lapTimes s ++ [newLap s]
             /\ lapTime (newLap s) = 0
             /\ totalTime (newLap s) = totalTime e).
  { intros s e Hr Ht Hl He. rewrite recordLap_records by done.
    split; [done |]. unfold newLap. simpl. rewrite Hl. lia. }
  split.
  - intros s e Hr Ht Hl He. exists (newLap s). by apply Hone.
  - intros s Hr Ht.
    pose (s1 := recordLap s).
    assert (H1 : s1 = set_lapCounter (lapCounter s + 1)
                        (set_lapTimes (lapTimes s ++ [newLap s]) s))
      by (by apply recordLap_records).
    assert (Hl1 : lapTimes s1 = lapTimes s ++ [newLap s]) by (by rewrite H1).
    destruct (Hone s1 (newLap s)) as (Ha & Hb & Hc).
    + by rewrite H1.
    + by rewrite H1.
    + rewrite Hl1. apply last_snoc.
    + by rewrite H1.
    + exists (newLap s), (newLap s1). fold s1.
      rewrite Ha, Hl1, <- app_assoc. done.
Qed.

Lemma recordLap_clock_not_advanced_witness :
  let s := run [Start 1%positive; Clock 1000; Tick 1%positive; Lap]
               (initial 0) in
  let e := mkLap 1000 1 1000 1000 in
  (reachable s /\ isRunning s = true /\ 0 < time s
   /\ last (lapTimes s) = Some e /\ totalTime e = time s
   /\ exists e' : LapTime,
        lapTimes (recordLap s) = lapTimes s ++ [e']
        /\ lapTime e' = 0
        /\ totalTime e' = totalTime e)
  /\ (exists e1 e2 : LapTime,
        lapTimes (recordLap (recordLap s)) = lapTimes s ++ [e1; e2]
        /\ totalTime e1 = time s
        /\ lapTime e2 = 0
        /\ totalTime e2 = totalTime e1).
Proof.
  intros s e.
  assert (Hreach : reachable s) by apply reachable_run, reachable_initial.
  assert (Hr : isRunning s = true) by reflexivity.
  assert (Ht : 0 < time s) by (vm_compute; reflexivity).
  assert (Hl : last (lapTimes s) = Some e) by (vm_compute; reflexivity).
  assert (He : totalTime e = time s) by (vm_compute; reflexivity).
  split.
  - split; [exact Hreach |]. split; [exact Hr |]. split; [exact Ht |].
    split; [exact Hl |]. split; [exact He |].
    exact (proj1 recordLap_clock_not_advanced s e Hr Ht Hl He).
  - exact (proj2 recordLap_clock_not_advanced s Hr Ht).
Defined.

(* ================================================================== *)
(** ** Calls that do not apply *)
(* ================================================================== *)

Lemma pauseStopwatch_stopped_core (s : State) :
  isRunning s = false -> core (pauseStopwatch s) = core s.
Proof.
  intros Hr. unfold core, pauseStopwatch.
  destruct (intervalRef s); cells; by rewrite Hr.
Qed.

Lemma pauseStopwatch_stopped (s : State) :
  timer_discipline s -> isRunning s = false -> pauseStopwatch s = s.
Proof.
  intros Hd Hr. destruct (stopped_no_timer s Hd Hr) as [Hi _].
  unfold pauseStopwatch. rewrite Hi. destruct s. cells. by subst.
Qed.

(** C6. A command whose precondition fails does nothing and signals
    nothing: a lap while stopped or at elapsed time 0 returns the state
    as it was, so does a start while running; a pause while stopped
    leaves elapsed time, run state, history and counter as they were
    (and, in a reachable state, every other cell too). *)
Theorem invalid_calls_are_no_ops :
  (forall s : State, isRunning s = false -> recordLap s = s)
  /\ (forall s : State, isRunning s = true -> time s = 0 -> recordLap s = s)
  /\ (forall (h : positive) (s : State),
        isRunning s = true -> startStopwatch h s = s)
  /\ (forall s : State,
        isRunning s = false -> core (pauseStopwatch s) = core s)
  /\ (forall s : State,
        reachable s -> isRunning s = false -> pauseStopwatch s = s).
Proof.
  split; [apply recordLap_stopped |].
  split; [intros s _ Ht; apply recordLap_not_started; lia |].
  split; [apply startStopwatch_running |].
  split; [apply pauseStopwatch_stopped_core |].
  intros s Hreach. apply pauseStopwatch_stopped.
  by apply timer_discipline_reachable.
Qed.

Lemma invalid_calls_are_no_ops_witness :
  let stopped := run [Start 1%positive; Clock 700; Tick 1%positive; Lap; Pause]
                     (initial 0) in
  let fresh := run [Start 1%positive] (initial 0) in
  (isRunning stopped = false /\ recordLap stopped = stopped)
  /\ (isRunning fresh = true /\ time fresh = 0 /\ recordLap fresh = fresh)
  /\ (isRunning fresh = true /\ startStopwatch 2%positive fresh = fresh)
  /\ (isRunning stopped = false /\ core (pauseStopwatch stopped) = core stopped)
  /\ (reachable stopped /\ isRunning stopped = false
      /\ pauseStopwatch stopped = stopped).
Proof.
  intros stopped fresh.
  assert (Hs : isRunning stopped = false) by reflexivity.
  assert (Hf : isRunning fresh = true) by reflexivity.
  assert (Ht : time fresh = 0) by reflexivity.
  assert (Hreach : reachable stopped) by apply reachable_run, reachable_initial.
  destruct invalid_calls_are_no_ops as (H1 & H2 & H3 & H4 & H5).
  split; [split; [exact Hs | exact (H1 stopped Hs)] |].
  split; [split; [exact Hf | split; [exact Ht | exact (H2 fresh Hf Ht)]] |].
  split; [split; [exact Hf | exact (H3 2%positive fresh Hf)] |].
  split; [split; [exact Hs | exact (H4 stopped Hs)] |].
  split; [exact Hreach | split; [exact Hs | exact (H5 stopped Hreach Hs)]].
Defined.

(** C7. [clearLaps] empties the history and puts the counter back to 1,
    so that the next lap recorded is lap 1, and leaves the run state, the
    elapsed time and every other cell as they were. *)
Theorem clearLaps_only_clears :
  forall s : State,
    lapTimes (clearLaps s) = []
    /\ lapCounter (clearLaps s) = 1
    /\ isRunning (clearLaps s) = isRunning s
    /\ time (clearLaps s) = time s
    /\ clearLaps s = set_lapCounter 1 (set_lapTimes [] s)
    /\ (isRunning s = true -> 0 < time s ->
        lapNumber <$> lapTimes (recordLap (clearLaps s)) = [1])
    /\ (forall (tr : list Event) (e : LapTime),
          head (lapTimes (run tr (clearLaps s))) = Some e -> lapNumber e = 1).
Proof.
  intros s. repeat split.
  - intros Hr Ht. by rewrite recordLap_records.
  - intros tr e. by apply first_lap_is_1.
Qed.

Lemma clearLaps_only_clears_witness :
  let s := run [Start 1%positive; Clock 1000; Tick 1%positive; Lap;
                Clock 2500; Tick 1%positive; Lap] (initial 0) in
  let tr := [Clock 3000; Tick 1%positive; Lap; Clock 4000] in
  let e := mkLap 3000 1 3000 3000 in
  isRunning s = true /\ 0 < time s
  /\ lapNumber <$> lapTimes (recordLap (clearLaps s)) = [1]
  /\ head (lapTimes (run tr (clearLaps s))) = Some e
  /\ lapNumber e = 1.
Proof.
  intros s tr e.
  assert (Hr : isRunning s = true) by reflexivity.
  assert (Ht : 0 < time s) by (vm_compute; reflexivity).
  assert (Hh : head (lapTimes (run tr (clearLaps s))) = Some e)
    by (vm_compute; reflexivity).
  destruct (clearLaps_only_clears s) as (_ & _ & _ & _ & _ & H1 & H2).
  split; [exact Hr |]. split; [exact Ht |].
  split; [exact (H1 Hr Ht) |].
  split; [exact Hh | exact (H2 tr e Hh)].
Defined.

(* ================================================================== *)
(** ** The lap history as a whole *)
(* ================================================================== *)

Section History.

Lemma sum_lapTime_snoc (l : list LapTime) (e : LapTime) :
  sum_lapTime (l ++ [e]) = sum_lapTime l + lapTime e.
Proof.
  unfold sum_lapTime. induction l as [|x l IH]; simpl; [lia |].
  rewrite IH. lia.
Qed.

Lemma last_totalTime_snoc (l : list LapTime) (e : LapTime) :
  last_totalTime (l ++ [e]) = totalTime e.
Proof. unfold last_totalTime. by rewrite last_snoc. Qed.

(** The lap times telescope: each one is the step from the previous
    total to the new one. *)
Lemma sum_telescopes_handle (e : Event) (s : State) :
  sum_lapTime (lapTimes s) = last_totalTime (lapTimes s) ->
  sum_lapTime (lapTimes (handle e s))
  = last_totalTime (lapTimes (handle e s)).
Proof.
  intros Hs. destruct e as [t | h | h | | | |]; cbn [handle].
  - done.
  - unfold tick. by destruct (bool_decide (h ∈ timers s)).
  - unfold startStopwatch. by destruct (isRunning s).
  - unfold pauseStopwatch. by destruct (intervalRef s).
  - unfold resetStopwatch. by destruct (intervalRef s).
  - destruct (recordLap_cases s) as [(_ & _ & ->) | ->]; [| done]. cells.
    rewrite sum_lapTime_snoc, last_totalTime_snoc, newLap_lapTime.
    unfold newLap. simpl. lia.
  - done.
Qed.

Lemma non_decreasing_nil : non_decreasing [].
Proof. intros i j a b _ Hi. by rewrite lookup_nil in Hi. Qed.

Lemma non_decreasing_snoc (l : list LapTime) (e : LapTime) :
  non_decreasing l ->
  (forall x : LapTime, x ∈ l -> totalTime x <= totalTime e) ->
  non_decreasing (l ++ [e]).
Proof.
  intros Hl He i j a b Hij Hi Hj.
  assert (Hjl : (j < length (l ++ [e]))%nat) by (by eapply lookup_lt_Some).
  rewrite length_app in Hjl. simpl in Hjl.
  rewrite lookup_app_l in Hi by lia.
  destruct (decide (j < length l)%nat) as [Hlt | Hge].
  - rewrite lookup_app_l in Hj by done. exact (Hl i j a b Hij Hi Hj).
  - rewrite lookup_app_r in Hj by lia.
    replace (j - length l)%nat with 0%nat in Hj by lia.
    injection Hj as <-. eapply He, list_elem_of_lookup_2, Hi.
Qed.

Lemma now_handle (e : Event) (s : State) :
  now (handle e s) = match e with Clock t => t | _ => now s end.
Proof.
  destruct e as [t | h | h | | | |]; cbn [handle].
  - done.
  - unfold tick. by destruct (bool_decide (h ∈ timers s)).
  - unfold startStopwatch. by destruct (isRunning s).
  - unfold pauseStopwatch. by destruct (intervalRef s).
  - unfold resetStopwatch. by destruct (intervalRef s).
  - unfold recordLap. by destruct (isRunning s && (0 <? time s)).
  - done.
Qed.

(** One event under a clock that does not go back. *)
Lemma in_order_handle (e : Event) (s : State) :
  timer_discipline s -> in_order s ->
  now s <= now (handle e s) ->
  in_order (handle e s).
Proof.
  intros Hd (Hclock & Hlast & Hsorted) Hnow. unfold in_order.
  destruct e as [t | h | h | | | |]; cbn [handle] in *.
  - cells. repeat split; [| done | done]. intros Hr. specialize (Hclock Hr). lia.
  - unfold tick. destruct (bool_decide_reflect (h ∈ timers s)) as [Hlive | _];
      [| done].
    assert (Hr : isRunning s = true).
    { destruct Hd as [Ht ->]. rewrite Ht in Hlive.
      destruct (intervalRef s); [done | set_solver]. }
    specialize (Hclock Hr). cells. repeat split; [lia | | done].
    intros x Hx. specialize (Hlast x Hx). lia.
  - unfold startStopwatch. destruct (isRunning s) eqn:Hr; cells.
    { repeat split; [intros _; by apply Hclock | done | done]. }
    repeat split; [lia | done | done].
  - unfold pauseStopwatch. destruct (intervalRef s); cells; done.
  - unfold resetStopwatch.
    destruct (intervalRef s); cells;
      (repeat split; [done | set_solver | apply non_decreasing_nil]).
  - destruct (recordLap_cases s) as [(Hr & Ht & ->) | ->]; [| done]. cells.
    repeat split; [done | |].
    + intros x [Hx | ->%list_elem_of_singleton]%elem_of_app;
        [by apply Hlast | done].
    + by apply non_decreasing_snoc.
  - cells. repeat split; [done | set_solver | apply non_decreasing_nil].
Qed.

Lemma in_order_run (tr : list Event) :
  forall s : State,
    timer_discipline s -> in_order s ->
    clock_monotone (now s) tr = true ->
    in_order (run tr s).
Proof.
  induction tr as [|e tr IH]; intros s Hd Ho Hm; [done |].
  rewrite run_cons.
  assert (Hstep : now s <= now (handle e s)
                  /\ clock_monotone (now (handle e s)) tr = true).
  { rewrite now_handle. destruct e; simpl in Hm; try (split; [lia | done]).
    apply andb_prop in Hm as [H1 H2]. split; [lia | done]. }
  destruct Hstep as [Hle Hm'].
  apply IH; [by apply timer_discipline_handle | | done].
  by apply in_order_handle.
Qed.

Lemma in_order_initial (t0 : Z) : in_order (initial t0).
Proof.
  repeat split; [done | | apply non_decreasing_nil].
  intros e He. simpl in He. set_solver.
Qed.

End History.

(** C1 as amended.  After any run from the initial state the lap times
    add up to the total time of the last entry; and when the clock never
    went backwards during the run the total times do not decrease along
    the history (they need not increase strictly). *)
Theorem lap_history_consistent :
  forall (t0 : Z) (tr : list Event),
    sum_lapTime (lapTimes (run tr (initial t0)))
    = last_totalTime (lapTimes (run tr (initial t0)))
    /\ (clock_monotone t0 tr = true ->
        non_decreasing (lapTimes (run tr (initial t0)))).
Proof.
  intros t0 tr. split.
  - apply (run_invariant
             (fun s => sum_lapTime (lapTimes s) = last_totalTime (lapTimes s)));
      [apply sum_telescopes_handle | done].
  - intros Hm.
    apply (in_order_run tr (initial t0)); [done | apply in_order_initial | done].
Qed.

Lemma lap_history_consistent_witness :
  let tr := [Start 1%positive; Clock 1000; Tick 1%positive; Lap; Lap;
             Clock 2500; Tick 1%positive; Lap] in
  clock_monotone 0 tr = true
  /\ non_decreasing (lapTimes (run tr (initial 0))).
Proof.
  intros tr.
  assert (Hm : clock_monotone 0 tr = true) by reflexivity.
  split; [exact Hm |].
  exact (proj2 (lap_history_consistent 0 tr) Hm).
Defined.

(** C1 as stated fails: two lap commands with no sample in between, on
    a clock that only moves forward, leave two entries with the same
    total time. *)
Lemma double_lap_same_totalTime :
  let tr := [Start 1%positive; Clock 1000; Tick 1%positive; Lap; Lap] in
  clock_monotone 0 tr = true
  /\ reachable (run tr (initial 0))
  /\ totalTime <$> lapTimes (run tr (initial 0)) = [1000; 1000]
  /\ ~ strictly_increasing (lapTimes (run tr (initial 0))).
Proof.
  intros tr.
  split; [reflexivity |].
  split; [apply reachable_run, reachable_initial |].
  split; [by vm_compute |].
  intros Hs.
  specialize (Hs 0%nat 1%nat (mkLap 1000 1 1000 1000) (mkLap 1000 2 0 1000)).
  assert (H : 1000 < 1000); [| lia].
  apply Hs; [lia | by vm_compute | by vm_compute].
Qed.

(** Why the amended claim asks for a clock that does not go back: when
    the wall clock is set back while running, a later entry can have a
    smaller total time. *)
Lemma clock_set_back_disorders_history :
  let tr := [Start 1%positive; Clock 1000; Tick 1%positive; Lap;
             Clock 400; Tick 1%positive; Lap] in
  clock_monotone 0 tr = false
  /\ totalTime <$> lapTimes (run tr (initial 0)) = [1000; 400]
  /\ lapTime <$> lapTimes (run tr (initial 0)) = [1000; -600].
Proof. intros tr. repeat split; by vm_compute. Qed.

(* ================================================================== *)
(** ** Starting, pausing, resuming *)
(* ================================================================== *)

Section Sessions.

(** As long as nobody pauses or resets, a running stopwatch keeps
    running on the same timer and the same origin. *)
Lemma keeps_running_run (h : positive) (tr : list Event) :
  forall s : State,
    isRunning s = true -> h ∈ timers s ->
    forallb keeps_running tr = true ->
    isRunning (run tr s) = true
    /\ h ∈ timers (run tr s)
    /\ startTimeRef (run tr s) = startTimeRef s.
Proof.
  induction tr as [|e tr IH]; intros s Hr Hh Hk; [done |].
  rewrite run_cons. simpl in Hk. apply andb_prop in Hk as [He Hk].
  assert (Hstep : isRunning (handle e s) = true
                  /\ h ∈ timers (handle e s)
                  /\ startTimeRef (handle e s) = startTimeRef s).
  { destruct e as [t | h' | h' | | | |]; cbn [handle]; try done.
    - unfold tick. by destruct (bool_decide (h' ∈ timers s)).
    - by rewrite startStopwatch_running.
    - by destruct (recordLap_cases s) as [(_ & _ & ->) | ->]. }
  destruct Hstep as (Hr' & Hh' & Hs').
  destruct (IH (handle e s) Hr' Hh' Hk) as (? & ? & ->). done.
Qed.

Lemma pauseStopwatch_time (s : State) : time (pauseStopwatch s) = time s.
Proof. unfold pauseStopwatch. by destruct (intervalRef s). Qed.

Lemma pauseStopwatch_isRunning (s : State) :
  isRunning (pauseStopwatch s) = false.
Proof. unfold pauseStopwatch. by destruct (intervalRef s). Qed.

Lemma pauseStopwatch_now (s : State) : now (pauseStopwatch s) = now s.
Proof. unfold pauseStopwatch. by destruct (intervalRef s). Qed.

(** One session: start on a stopped stopwatch, let [d] ms pass, take a
    sample, pause. *)
Lemma session (h : positive) (d : Z) (s : State) :
  isRunning s = false ->
  let s' := run [Start h; Clock (now s + d); Tick h; Pause] s in
  time s' = time s + d /\ isRunning s' = false /\ now s' = now s + d.
Proof.
  intros Hr s'. subst s'. cbn [run fold_left handle].
  rewrite pauseStopwatch_time, pauseStopwatch_isRunning, pauseStopwatch_now.
  unfold startStopwatch. rewrite Hr. cbn [negb].
  rewrite tick_live by (cells; set_solver).
  cells. repeat split; lia.
Qed.

(** A stopped stopwatch that is neither started nor reset keeps its
    elapsed time and stays stopped. *)
Lemma stopped_run (tr : list Event) :
  forall s : State,
    timer_discipline s -> isRunning s = false ->
    forallb keeps_stopped tr = true ->
    time (run tr s) = time s /\ isRunning (run tr s) = false.
Proof.
  induction tr as [|e tr IH]; intros s Hd Hr Hk; [done |].
  rewrite run_cons. simpl in Hk. apply andb_prop in Hk as [He Hk].
  destruct (stopped_no_timer s Hd Hr) as [_ Hm].
  assert (Hstep : time (handle e s) = time s /\ isRunning (handle e s) = false).
  { destruct e as [t | h | h | | | |]; cbn [handle]; try done.
    - rewrite tick_dead by (rewrite Hm; set_solver). done.
    - by rewrite pauseStopwatch_time, pauseStopwatch_isRunning.
    - by rewrite recordLap_stopped. }
  destruct Hstep as [Ht' Hr'].
  destruct (IH (handle e s)) as [-> ->];
    [by apply timer_discipline_handle | done | done | done].
Qed.

(** A stopwatch started while stopped runs on timer [h] from the
    origin [now s - time s] until it is paused or reset. *)
Lemma startStopwatch_samples (h : positive) (s : State) (tr : list Event) :
  isRunning s = false ->
  forallb keeps_running tr = true ->
  isRunning (run tr (startStopwatch h s)) = true
  /\ h ∈ timers (run tr (startStopwatch h s))
  /\ time (tick h (run tr (startStopwatch h s)))
     = now (run tr (startStopwatch h s)) - now s + time s.
Proof.
  intros Hr Hk.
  assert (Hs : startStopwatch h s
               = set_isRunning true
                   (set_intervalRef (Some h)
                      (setInterval h (set_startTimeRef (now s - time s) s)))).
  { unfold startStopwatch. by rewrite Hr. }
  destruct (keeps_running_run h tr (startStopwatch h s)) as (Hr' & Hh & Hst).
  - by rewrite Hs.
  - rewrite Hs. unfold setInterval. cells. set_solver.
  - done.
  - split; [done |]. split; [done |].
    rewrite tick_live by done. rewrite Hst, Hs. cells. lia.
Qed.

End Sessions.

(** C4. [startStopwatch] does nothing on a running stopwatch.  Started
    while stopped with [time s] already accumulated and the clock at
    [now s], it runs on timer [h], and as long as it is neither paused
    nor reset every sample of that timer sets the elapsed time to the
    clock reading minus [now s] plus [time s].  Pausing keeps the
    elapsed time, at the call and for as long as the pause lasts:
    whatever the clock does and whichever timers try to fire in the
    meantime (and whatever pause, lap and clear commands are issued),
    the elapsed time at the next start is the one at the pause, and the
    samples after that start count on from it.  So running 500 ms,
    pausing for any while and running 300 ms more gives 800 ms. *)
Theorem startStopwatch_resumes :
  (forall (h : positive) (s : State),
      isRunning s = true -> startStopwatch h s = s)
  /\ (forall (h : positive) (s : State) (tr : list Event),
        isRunning s = false ->
        forallb keeps_running tr = true ->
        let s' := run tr (startStopwatch h s) in
        isRunning s' = true
        /\ h ∈ timers s'
        /\ time (tick h s') = now s' - now s + time s)
  /\ (forall s : State, time (pauseStopwatch s) = time s)
  /\ (forall (t0 gap : Z) (h1 h2 : positive),
        time (run [Start h1; Clock (t0 + 500); Tick h1; Pause;
                   Clock (t0 + 500 + gap);
                   Start h2; Clock (t0 + 500 + gap + 300); Tick h2; Pause]
                  (initial t0)) = 800)
  /\ (forall (s : State) (gap tr : list Event) (h : positive),
        reachable s ->
        forallb keeps_stopped gap = true ->
        forallb keeps_running tr = true ->
        let paused := run gap (pauseStopwatch s) in
        let s' := run tr (startStopwatch h paused) in
        time paused = time s
        /\ isRunning paused = false
        /\ time (startStopwatch h paused) = time s
        /\ isRunning s' = true
        /\ time (tick h s') = now s' - now paused + time s)
  /\ (forall (t0 : Z) (gap : list Event) (h1 h2 : positive),
        forallb keeps_stopped gap = true ->
        let paused := run ([Start h1; Clock (t0 + 500); Tick h1; Pause] ++ gap)
                          (initial t0) in
        time paused = 500
        /\ time (run [Start h2; Clock (now paused + 300); Tick h2; Pause] paused)
           = 800).
Proof.
  split; [apply startStopwatch_running |].
  split; [intros h s tr Hr Hk; by apply startStopwatch_samples |].
  split; [apply pauseStopwatch_time |].
  split; [| split].
  - intros t0 gap h1 h2.
    rewrite (run_app [Start h1; Clock (t0 + 500); Tick h1; Pause]
               (Clock (t0 + 500 + gap)
                  :: [Start h2; Clock (t0 + 500 + gap + 300); Tick h2; Pause])).
    rewrite run_cons.
    destruct (session h1 500 (initial t0)) as (Ht1 & Hr1 & Hn1); [done |].
    change (now (initial t0) + 500) with (t0 + 500) in *.
    set (s1 := run [Start h1; Clock (t0 + 500); Tick h1; Pause] (initial t0)) in *.
    set (s2 := handle (Clock (t0 + 500 + gap)) s1).
    destruct (session h2 300 s2) as (Ht2 & _ & _); [done |].
    replace (now s2 + 300) with (t0 + 500 + gap + 300) in Ht2 by (subst s2; cells; lia).
    rewrite Ht2. subst s2. cells. rewrite Ht1. done.
  - intros s gap tr h Hreach Hgap Htr paused s'.
    assert (Hp : reachable (pauseStopwatch s)) by apply (reachable_handle Pause s Hreach).
    destruct (stopped_run gap (pauseStopwatch s)) as [Ht Hr];
      [by apply timer_discipline_reachable | apply pauseStopwatch_isRunning
      | done |].
    rewrite pauseStopwatch_time in Ht. fold paused in Ht, Hr.
    destruct (startStopwatch_samples h paused tr Hr Htr) as (Hr' & _ & Hs).
    fold s' in Hr', Hs. rewrite Ht in Hs.
    do 2 (split; [done |]). split; [| by split].
    unfold startStopwatch. rewrite Hr. by cells.
  - intros t0 gap h1 h2 Hgap paused. subst paused. rewrite run_app.
    destruct (session h1 500 (initial t0)) as (Ht1 & Hr1 & _); [done |].
    change (now (initial t0) + 500) with (t0 + 500) in *.
    set (s1 := run [Start h1; Clock (t0 + 500); Tick h1; Pause] (initial t0)) in *.
    assert (Hreach : reachable s1) by apply reachable_run, reachable_initial.
    destruct (stopped_run gap s1) as [Ht Hr];
      [by apply timer_discipline_reachable | done | done |].
    set (s2 := run gap s1) in *.
    destruct (session h2 300 s2 Hr) as (Ht2 & _ & _).
    split; [by rewrite Ht, Ht1 |].
    rewrite Ht2, Ht, Ht1. done.
Qed.

Lemma startStopwatch_resumes_witness :
  let s := run [Start 1%positive; Clock 500; Tick 1%positive; Pause; Clock 900]
               (initial 0) in
  let tr := [Clock 950; Tick 2%positive; Lap; Clock 1200] in
  let s' := run tr (startStopwatch 2%positive s) in
  let running := run [Start 1%positive; Clock 500; Tick 1%positive] (initial 0) in
  let gap := [Clock 5000; Tick 1%positive; Lap; Clock 5500; Tick 1%positive] in
  let paused := run gap (pauseStopwatch running) in
  let resumed := run tr (startStopwatch 2%positive paused) in
  let paused0 := run ([Start 1%positive; Clock (0 + 500); Tick 1%positive; Pause]
                        ++ gap) (initial 0) in
  (isRunning s = false /\ forallb keeps_running tr = true
   /\ isRunning s' = true
   /\ 2%positive ∈ timers s'
   /\ time (tick 2%positive s') = now s' - now s + time s)
  /\ (isRunning s' = true /\ startStopwatch 3%positive s' = s')
  /\ (reachable running
      /\ forallb keeps_stopped gap = true
      /\ time paused = time running
      /\ isRunning paused = false
      /\ time (startStopwatch 2%positive paused) = time running
      /\ isRunning resumed = true
      /\ time (tick 2%positive resumed) = now resumed - now paused + time running)
  /\ (time paused0 = 500
      /\ time (run [Start 2%positive; Clock (now paused0 + 300);
                    Tick 2%positive; Pause] paused0) = 800).
Proof.
  intros s tr s' running gap paused resumed paused0.
  assert (Hr : isRunning s = false) by reflexivity.
  assert (Hk : forallb keeps_running tr = true) by reflexivity.
  assert (Hr' : isRunning s' = true) by reflexivity.
  assert (Hreach : reachable running) by apply reachable_run, reachable_initial.
  assert (Hgap : forallb keeps_stopped gap = true) by reflexivity.
  destruct startStopwatch_resumes as (H1 & H2 & _ & _ & H5 & H6).
  split; [| split; [| split]].
  - split; [exact Hr |]. split; [exact Hk |].
    exact (H2 2%positive s tr Hr Hk).
  - split; [exact Hr' |]. exact (H1 3%positive s' Hr').
  - split; [exact Hreach |]. split; [exact Hgap |].
    exact (H5 running gap tr 2%positive Hreach Hgap Hk).
  - exact (H6 0 gap 1%positive 2%positive Hgap).
Defined.

(* ================================================================== *)
(** ** Reset *)
(* ================================================================== *)

Section Reset.

Lemma resetStopwatch_cells (s : State) :
  time (resetStopwatch s) = 0
  /\ isRunning (resetStopwatch s) = false
  /\ lapTimes (resetStopwatch s) = []
  /\ lapCounter (resetStopwatch s) = 1
  /\ intervalRef (resetStopwatch s) = None
  /\ now (resetStopwatch s) = now s.
Proof.
  unfold resetStopwatch.
  destruct (intervalRef s) eqn:Hi; repeat split; by cells.
Qed.

Lemma resetStopwatch_timers (s : State) :
  timer_discipline s -> timers (resetStopwatch s) = ∅.
Proof.
  intros [Ht _]. unfold resetStopwatch.
  destruct (intervalRef s); cells; rewrite Ht; [apply difference_diag_L | done].
Qed.

(** Two states on the same course stay on the same course. *)
Lemma same_course_handle (e : Event) (s1 s2 : State) :
  same_course s1 s2 -> same_course (handle e s1) (handle e s2).
Proof.
  destruct s1 as [t1 r1 l1 i1 o1 c1 n1 m1], s2 as [t2 r2 l2 i2 o2 c2 n2 m2].
  unfold same_course, same_behaviour. cells.
  intros ((-> & -> & -> & -> & -> & -> & ->) & Ho).
  destruct e as [t | h | h | | | |]; cbn [handle].
  - done.
  - unfold tick. cells. destruct (bool_decide_reflect (h ∈ m2)) as [Hh | _];
      cells; [| done].
    rewrite Ho by set_solver. done.
  - unfold startStopwatch. cells. destruct r2; cells; done.
  - unfold pauseStopwatch. cells. destruct i2; cells; [| done].
    split; [done |]. intros Hne. apply Ho. intros ->.
    apply Hne, empty_difference_L.
  - unfold resetStopwatch. cells. destruct i2; cells; [| done].
    split; [done |]. intros Hne. apply Ho. intros ->.
    apply Hne, empty_difference_L.
  - unfold recordLap, newLap. cells. destruct (r2 && (0 <? t2)); cells; done.
  - done.
Qed.

Lemma same_course_run (tr : list Event) :
  forall s1 s2 : State,
    same_course s1 s2 -> same_course (run tr s1) (run tr s2).
Proof.
  induction tr as [|e tr IH]; intros s1 s2 Hs; [done |].
  rewrite !run_cons. by apply IH, same_course_handle.
Qed.

End Reset.

(** C5. In any state, [resetStopwatch] leaves the stopwatch stopped at
    elapsed time 0 with an empty history and the counter at 1; whatever
    follows, the first entry of the history is lap 1.  After a reset in
    a reachable state every continuation runs exactly as it would on a
    component just mounted at the same clock reading. *)
Theorem resetStopwatch_as_fresh :
  forall s : State,
    isRunning (resetStopwatch s) = false
    /\ time (resetStopwatch s) = 0
    /\ lapTimes (resetStopwatch s) = []
    /\ lapCounter (resetStopwatch s) = 1
    /\ (forall (tr : list Event) (e : LapTime),
          head (lapTimes (run tr (resetStopwatch s))) = Some e ->
          lapNumber e = 1)
    /\ (reachable s ->
        forall tr : list Event,
          same_behaviour (run tr (resetStopwatch s))
                         (run tr (initial (now s)))).
Proof.
  intros s. destruct (resetStopwatch_cells s) as (Ht & Hr & Hl & Hc & Hi & Hn).
  do 4 (split; [done |]). split.
  - intros tr e. by apply first_lap_is_1.
  - intros Hreach tr. apply same_course_run.
    pose proof (resetStopwatch_timers s (timer_discipline_reachable s Hreach))
      as Hm.
    split; [by repeat split | by intros []].
Qed.

Lemma resetStopwatch_as_fresh_witness :
  let s := run [Start 1%positive; Clock 1000; Tick 1%positive; Lap;
                Clock 2500; Tick 1%positive; Lap] (initial 0) in
  let tr := [Start 2%positive; Clock 3200; Tick 2%positive; Lap] in
  let e := mkLap 3200 1 700 700 in
  isRunning s = true
  /\ reachable s
  /\ head (lapTimes (run tr (resetStopwatch s))) = Some e
  /\ lapNumber e = 1
  /\ same_behaviour (run tr (resetStopwatch s)) (run tr (initial (now s))).
Proof.
  intros s tr e.
  assert (Hreach : reachable s) by apply reachable_run, reachable_initial.
  assert (Hh : head (lapTimes (run tr (resetStopwatch s))) = Some e)
    by (vm_compute; reflexivity).
  destruct (resetStopwatch_as_fresh s) as (_ & _ & _ & _ & H1 & H2).
  split; [reflexivity |]. split; [exact Hreach |]. split; [exact Hh |].
  split; [exact (H1 tr e Hh) | exact (H2 Hreach tr)].
Defined.

(* ================================================================== *)
(** ** Cancelling the sampling timer *)
(* ================================================================== *)

Section Cancel.

Lemma pauseStopwatch_timers (s : State) :
  timer_discipline s -> timers (pauseStopwatch s) = ∅.
Proof.
  intros [Ht _]. unfold pauseStopwatch.
  destruct (intervalRef s); cells; rewrite Ht; [apply difference_diag_L | done].
Qed.

Lemma unmount_timers (s : State) :
  timer_discipline s -> timers (unmount s) = ∅.
Proof.
  intros [Ht _]. unfold unmount.
  destruct (intervalRef s); cells; rewrite Ht; [apply difference_diag_L | done].
Qed.

Lemma unmount_time (s : State) : time (unmount s) = time s.
Proof. unfold unmount. by destruct (intervalRef s). Qed.

(** With no live timer, the environment alone changes nothing but the
    clock. *)
Lemma no_timer_env_run (tr : list Event) :
  forall s : State,
    timers s = ∅ -> forallb is_env tr = true ->
    run tr s = set_now (now (run tr s)) s.
Proof.
  induction tr as [|e tr IH]; intros s Hm He.
  { by destruct s. }
  rewrite run_cons. simpl in He. apply andb_prop in He as [He1 He2].
  destruct e as [t | h | h | | | |]; try done; cbn [handle].
  - rewrite (IH (set_now t s)) by done. by destruct s.
  - rewrite tick_dead by (rewrite Hm; set_solver). by apply IH.
Qed.

End Cancel.

(** C8. In a reachable state, once [pauseStopwatch], [resetStopwatch] or
    the teardown of the component has run, no sampling timer is live:
    however the clock moves and whichever timer handles the browser
    tries to fire afterwards, with no new command issued, the state
    stays what the cancelling call left, the clock apart; in particular
    the elapsed time no longer changes. *)
Theorem no_tick_after_cancel :
  forall s : State,
    reachable s ->
    timers (pauseStopwatch s) = ∅
    /\ timers (resetStopwatch s) = ∅
    /\ timers (unmount s) = ∅
    /\ forall tr : list Event,
         forallb is_env tr = true ->
         (exists t, run tr (pauseStopwatch s) = set_now t (pauseStopwatch s))
         /\ (exists t, run tr (resetStopwatch s) = set_now t (resetStopwatch s))
         /\ (exists t, run tr (unmount s) = set_now t (unmount s))
         /\ time (run tr (pauseStopwatch s)) = time s
         /\ time (run tr (resetStopwatch s)) = 0
         /\ time (run tr (unmount s)) = time s.
Proof.
  intros s Hreach.
  pose proof (timer_discipline_reachable s Hreach) as Hd.
  pose proof (pauseStopwatch_timers s Hd) as Hp.
  pose proof (resetStopwatch_timers s Hd) as Hr.
  pose proof (unmount_timers s Hd) as Hu.
  split; [done |]. split; [done |]. split; [done |].
  intros tr He.
  pose proof (no_timer_env_run tr _ Hp He) as H1.
  pose proof (no_timer_env_run tr _ Hr He) as H2.
  pose proof (no_timer_env_run tr _ Hu He) as H3.
  split; [by eexists |]. split; [by eexists |]. split; [by eexists |].
  rewrite H1, H2, H3. unfold set_now. cbn [time].
  rewrite pauseStopwatch_time, unmount_time.
  by destruct (resetStopwatch_cells s) as (-> & _).
Qed.

Lemma no_tick_after_cancel_witness :
  let s := run [Start 1%positive; Clock 1000; Tick 1%positive; Lap;
                Clock 2500; Tick 1%positive] (initial 0) in
  let tr := [Clock 2510; Tick 1%positive; Clock 2520; Tick 1%positive;
             Tick 2%positive] in
  reachable s /\ isRunning s = true /\ forallb is_env tr = true
  /\ time (run tr s) = 2520
  /\ time (run tr (pauseStopwatch s)) = time s
  /\ time (run tr (resetStopwatch s)) = 0
  /\ time (run tr (unmount s)) = time s.
Proof.
  intros s tr.
  assert (Hreach : reachable s) by apply reachable_run, reachable_initial.
  assert (He : forallb is_env tr = true) by reflexivity.
  destruct (no_tick_after_cancel s Hreach) as (_ & _ & _ & H).
  destruct (H tr He) as (_ & _ & _ & H1 & H2 & H3).
  split; [exact Hreach |]. split; [reflexivity |]. split; [exact He |].
  split; [by vm_compute |].
  split; [exact H1 |]. split; [exact H2 | exact H3].
Defined.

(* ================================================================== *)
(** ** More on [formatTime] *)
(* ================================================================== *)

Section FormatMore.

Local Abbreviation pad2 n := (JS.padStart 2 "0" (JS.toString n)).

Lemma formatTime_nonneg (t : Z) :
  0 <= t ->
  formatTime t
  = pad2 (t / 60000) +:+ ":" +:+ pad2 (t mod 60000 / 1000)
      +:+ "." +:+ pad2 (t mod 1000 / 10).
Proof. intros Ht. unfold formatTime. by rewrite !Z.rem_mod_nonneg by lia. Qed.

(** A padded non-negative number: digits only, at least two, reading
    the number back; exactly two below 100. *)
Lemma pad2_nonneg (n : Z) :
  0 <= n ->
  all_digits (pad2 n) = true
  /\ decimal_value (pad2 n) = n
  /\ (2 <= String.length (pad2 n))%nat
  /\ (n < 100 <-> String.length (pad2 n) = 2%nat).
Proof.
  intros Hn. destruct (Z.lt_ge_cases n 100) as [Hlt | Hge].
  - destruct (pad2_small n) as (Hd & Hv & Hl); [lia |].
    rewrite Hl. repeat split; auto; lia.
  - rewrite pad2_large by done.
    destruct (digits_spec n Hn) as (Hd & _ & _).
    pose proof (digits_length_3 n Hge).
    repeat split; [done | by apply digits_value | lia | lia | lia].
Qed.

Lemma field_bounds (t : Z) :
  0 <= t ->
  0 <= t / 60000 /\ 0 <= t mod 60000 / 1000 < 100 /\ 0 <= t mod 1000 / 10 < 100.
Proof.
  intros Ht.
  pose proof (Z.mod_pos_bound t 60000). pose proof (Z.mod_pos_bound t 1000).
  repeat split.
  - apply Z.div_pos; lia.
  - apply Z.div_pos; lia.
  - apply Z.div_lt_upper_bound; lia.
  - apply Z.div_pos; lia.
  - apply Z.div_lt_upper_bound; lia.
Qed.

(** The three fields put together again give [t] cut to a multiple of
    10 ms. *)
Lemma fields_recombine (t : Z) :
  60000 * (t / 60000) + 1000 * (t mod 60000 / 1000) + 10 * (t mod 1000 / 10)
  = 10 * (t / 10).
Proof. Z.div_mod_to_equations. lia. Qed.

(** The three fields depend on [t / 10] only. *)
Lemma fields_of_centiseconds (t : Z) :
  t / 60000 = t / 10 / 6000
  /\ t mod 60000 / 1000 = (t / 10) mod 6000 / 100
  /\ t mod 1000 / 10 = (t / 10) mod 100.
Proof. repeat split; Z.div_mod_to_equations; lia. Qed.

Lemma split_at_digits (c : ascii) (a b : string) :
  all_digits a = true -> is_digit c = false ->
  split_at c (a +:+ String c b) = Some (a, b).
Proof.
  intros Ha Hc. induction a as [|x a IH]; simpl.
  - by rewrite Ascii.eqb_refl.
  - simpl in Ha. apply andb_prop in Ha as [Hx Ha].
    destruct (Ascii.eqb_spec x c) as [-> | _]; [congruence |].
    by rewrite IH.
Qed.

Lemma append_char (c : ascii) (s : string) :
  String c EmptyString +:+ s = String c s.
Proof. done. Qed.

Lemma parseTime_fields (mm ss cc : string) :
  all_digits mm = true -> all_digits ss = true -> all_digits cc = true ->
  parseTime (mm +:+ ":" +:+ ss +:+ "." +:+ cc)
  = Some (60000 * decimal_value mm + 1000 * decimal_value ss
          + 10 * decimal_value cc).
Proof.
  intros Hm Hs Hc. unfold parseTime. rewrite !append_char.
  rewrite (split_at_digits ":" mm) by done.
  rewrite (split_at_digits "." ss) by done.
  by rewrite Hm, Hs, Hc.
Qed.

Lemma parseTime_formatTime_nonneg (t : Z) :
  0 <= t -> parseTime (formatTime t) = Some (10 * (t / 10)).
Proof.
  intros Ht. destruct (field_bounds t Ht) as (Hm & Hs & Hc).
  destruct (pad2_nonneg _ Hm) as (Hm1 & Hm2 & _).
  destruct (pad2_nonneg (t mod 60000 / 1000)) as (Hs1 & Hs2 & _); [lia |].
  destruct (pad2_nonneg (t mod 1000 / 10)) as (Hc1 & Hc2 & _); [lia |].
  rewrite formatTime_nonneg, parseTime_fields by done.
  by rewrite Hm2, Hs2, Hc2, fields_recombine.
Qed.

Lemma formatTime_length_nonneg (t : Z) :
  0 <= t ->
  String.length (formatTime t)
  = (String.length (pad2 (t / 60000)) + 6)%nat.
Proof.
  intros Ht. destruct (field_bounds t Ht) as (Hm & Hs & Hc).
  destruct (pad2_small _ Hs) as (_ & _ & Hs3).
  destruct (pad2_small _ Hc) as (_ & _ & Hc3).
  rewrite formatTime_nonneg by done.
  rewrite !string_length_app, Hs3, Hc3. simpl. lia.
Qed.

(** What C3 says of one non-negative [t], for use on displayed values. *)
Lemma formatTime_reads_nonneg (t : Z) :
  0 <= t -> reads_MM_SS_CC t (formatTime t).
Proof.
  intros Ht. destruct (field_bounds t Ht) as (Hm & Hs & Hc).
  destruct (pad2_nonneg _ Hm) as (Hm1 & Hm2 & Hm3 & Hm4).
  destruct (pad2_small _ Hs) as (Hs1 & Hs2 & Hs3).
  destruct (pad2_small _ Hc) as (Hc1 & Hc2 & Hc3).
  exists (pad2 (t / 60000)), (pad2 (t mod 60000 / 1000)),
         (pad2 (t mod 1000 / 10)).
  split; [by apply formatTime_nonneg |].
  do 9 (split; [done || lia |]).
  split; [apply Hm4 |].
  intros Hge. split.
  - rewrite pad2_large by done. by apply digits_length_3.
  - rewrite pad2_large by done. apply digits_no_leading_zero; lia.
Qed.

(** Below zero the minutes field is printed with its sign. *)
Lemma formatTime_negative (t : Z) :
  t < 0 -> exists rest : string, formatTime t = String "-" rest.
Proof.
  intros Ht. unfold formatTime.
  assert (Hm : t / 60000 < 0) by (apply Z.div_lt_upper_bound; lia).
  unfold JS.toString at 1. destruct (Z.ltb_spec (t / 60000) 0); [| lia].
  destruct (digits_spec (- (t / 60000))) as (_ & _ & Hl); [lia |].
  unfold JS.padStart at 1. cbn [String.length].
  destruct (Nat.leb_spec 2 (S (String.length (JS.digits (- (t / 60000))))));
    [| lia].
  by eexists.
Qed.

End FormatMore.

(** X1. Reading a formatted non-negative time back gives the time cut
    down to a multiple of 10 ms. *)
Theorem formatTime_round_trip :
  forall t : Z, 0 <= t -> parseTime (formatTime t) = Some (t - t mod 10).
Proof.
  intros t Ht. rewrite parseTime_formatTime_nonneg by done.
  f_equal. Z.div_mod_to_equations. lia.
Qed.

Lemma formatTime_round_trip_witness :
  0 <= 6754321 /\ parseTime (formatTime 6754321) = Some (6754321 - 6754321 mod 10).
Proof. split; [lia |]. apply (formatTime_round_trip 6754321). lia. Defined.

(** X2. Two non-negative times are displayed alike exactly when they
    agree up to the centisecond. *)
Theorem formatTime_same_display :
  forall t1 t2 : Z,
    0 <= t1 -> 0 <= t2 ->
    (formatTime t1 = formatTime t2 <-> t1 / 10 = t2 / 10).
Proof.
  intros t1 t2 H1 H2. split.
  - intros Heq.
    pose proof (parseTime_formatTime_nonneg t1 H1) as P1.
    pose proof (parseTime_formatTime_nonneg t2 H2) as P2.
    rewrite Heq, P2 in P1. injection P1 as P1. lia.
  - intros Heq. rewrite !formatTime_nonneg by done.
    destruct (fields_of_centiseconds t1) as (-> & -> & ->).
    destruct (fields_of_centiseconds t2) as (-> & -> & ->).
    by rewrite Heq.
Qed.

Lemma formatTime_same_display_witness :
  0 <= 61005 /\ 0 <= 61009
  /\ (formatTime 61005 = formatTime 61009 <-> 61005 / 10 = 61009 / 10).
Proof.
  split; [lia |]. split; [lia |].
  apply (formatTime_same_display 61005 61009); lia.
Defined.

(** X3. A formatted non-negative time has at least 8 characters, and
    exactly 8 as long as it stays below 100 minutes. *)
Theorem formatTime_length :
  forall t : Z,
    0 <= t ->
    (8 <= String.length (formatTime t))%nat
    /\ (String.length (formatTime t) = 8%nat <-> t < 6000000).
Proof.
  intros t Ht. rewrite formatTime_length_nonneg by done.
  destruct (field_bounds t Ht) as (Hm & _).
  destruct (pad2_nonneg _ Hm) as (_ & _ & Hl & Hiff).
  split; [lia |].
  assert (Hq : t / 60000 < 100 <-> t < 6000000)
    by (Z.div_mod_to_equations; lia).
  rewrite <- Hq, Hiff. lia.
Qed.

Lemma formatTime_length_witness :
  0 <= 6000000
  /\ (8 <= String.length (formatTime 6000000))%nat
  /\ (String.length (formatTime 6000000) = 8%nat <-> 6000000 < 6000000).
Proof. split; [lia |]. apply (formatTime_length 6000000). lia. Defined.

(** X4. [formatTime] does not clamp: for a negative time the result
    begins with a minus sign and reads as [MM:SS.CC] for no time at all. *)
Theorem formatTime_negative_unreadable :
  forall t : Z,
    t < 0 ->
    (exists rest : string, formatTime t = String "-" rest)
    /\ (forall t' : Z, ~ reads_MM_SS_CC t' (formatTime t))
    /\ parseTime (formatTime t) = None.
Proof.
  intros t Ht. destruct (formatTime_negative t Ht) as (rest & Hrest).
  split; [by exists rest |]. split.
  - intros t' (mm & ss & cc & Heq & Hmm & _). rewrite Hrest in Heq.
    destruct mm as [|c mm]; [discriminate |].
    injection Heq as <- _. discriminate.
  - rewrite Hrest. unfold parseTime. cbn [split_at].
    change (Ascii.eqb "-" ":") with false. cbn iota.
    destruct (split_at ":" rest) as [[mm r] |]; [| done].
    destruct (split_at "." r) as [[ss cc] |]; [| done].
    done.
Qed.

Lemma formatTime_negative_unreadable_witness :
  -600 < 0
  /\ (exists rest : string, formatTime (-600) = String "-" rest)
  /\ (forall t' : Z, ~ reads_MM_SS_CC t' (formatTime (-600)))
  /\ parseTime (formatTime (-600)) = None.
Proof. split; [lia |]. apply (formatTime_negative_unreadable (-600)). lia. Defined.

(* ================================================================== *)
(** ** The elapsed time along a run *)
(* ================================================================== *)

Section Elapsed.

Lemma clock_monotone_app (tr1 tr2 : list Event) :
  forall s : State,
    clock_monotone (now s) (tr1 ++ tr2)
    = clock_monotone (now s) tr1 && clock_monotone (now (run tr1 s)) tr2.
Proof.
  induction tr1 as [|e tr1 IH]; intros s; [done |].
  rewrite run_cons. specialize (IH (handle e s)).
  rewrite now_handle in IH.
  destruct e; simpl; rewrite IH; try done.
  by rewrite andb_assoc.
Qed.

(** One event under a clock that does not go back: the elapsed time
    stays non-negative and, unless the event is a reset, does not
    decrease. *)
Lemma time_handle (e : Event) (s : State) :
  timer_discipline s -> in_order s -> 0 <= time s ->
  now s <= now (handle e s) ->
  0 <= time (handle e s) /\ (e <> Reset -> time s <= time (handle e s)).
Proof.
  intros Hd (Hclock & _ & _) Ht Hnow.
  destruct e as [t | h | h | | | |]; cbn [handle] in *.
  - done.
  - unfold tick. destruct (bool_decide_reflect (h ∈ timers s)) as [Hlive | _];
      [| done].
    assert (Hr : isRunning s = true).
    { destruct Hd as [Hm ->]. rewrite Hm in Hlive.
      destruct (intervalRef s); [done | set_solver]. }
    specialize (Hclock Hr). cells. lia.
  - unfold startStopwatch. by destruct (isRunning s).
  - by rewrite pauseStopwatch_time.
  - destruct (resetStopwatch_cells s) as (-> & _). done.
  - by destruct (recordLap_cases s) as [(_ & _ & ->) | ->].
  - done.
Qed.

Lemma clock_step (e : Event) (tr : list Event) (s : State) :
  clock_monotone (now s) (e :: tr) = true ->
  now s <= now (handle e s) /\ clock_monotone (now (handle e s)) tr = true.
Proof.
  intros Hm. rewrite now_handle.
  destruct e; simpl in Hm; try (split; [lia | done]).
  apply andb_prop in Hm as [H1 H2]. split; [lia | done].
Qed.

Lemma time_run (tr : list Event) :
  forall s : State,
    timer_discipline s -> in_order s -> 0 <= time s ->
    clock_monotone (now s) tr = true ->
    timer_discipline (run tr s) /\ in_order (run tr s) /\ 0 <= time (run tr s).
Proof.
  induction tr as [|e tr IH]; intros s Hd Ho Ht Hm; [done |].
  rewrite run_cons. destruct (clock_step e tr s Hm) as [Hle Hm'].
  apply IH; [by apply timer_discipline_handle | by apply in_order_handle | | done].
  by apply time_handle.
Qed.

Lemma time_run_initial (t0 : Z) (tr : list Event) :
  clock_monotone t0 tr = true ->
  timer_discipline (run tr (initial t0))
  /\ in_order (run tr (initial t0))
  /\ 0 <= time (run tr (initial t0)).
Proof.
  intros Hm. apply time_run; [done | apply in_order_initial | done | done].
Qed.

End Elapsed.

(** X5. As long as the clock never goes back, the elapsed time is
    never negative, and no event except a reset makes it smaller. *)
Theorem elapsed_time_never_decreases :
  forall (t0 : Z) (tr : list Event) (e : Event),
    clock_monotone t0 (tr ++ [e]) = true ->
    0 <= time (run tr (initial t0))
    /\ 0 <= time (run (tr ++ [e]) (initial t0))
    /\ (e <> Reset ->
        time (run tr (initial t0)) <= time (run (tr ++ [e]) (initial t0))).
Proof.
  intros t0 tr e Hm.
  change t0 with (now (initial t0)) in Hm.
  rewrite clock_monotone_app in Hm. apply andb_prop in Hm as [Hm1 Hm2].
  destruct (time_run_initial t0 tr Hm1) as (Hd & Ho & Ht).
  destruct (clock_step e [] _ Hm2) as [Hle _].
  rewrite run_app. change (run [e] ?s) with (handle e s).
  destruct (time_handle e _ Hd Ho Ht Hle) as [H1 H2]. done.
Qed.

Lemma elapsed_time_never_decreases_witness :
  let tr := [Start 1%positive; Clock 1000; Tick 1%positive; Pause;
             Clock 5000; Start 2%positive; Clock 5300] in
  let e := Tick 2%positive in
  clock_monotone 0 (tr ++ [e]) = true /\ e <> Reset
  /\ 0 <= time (run tr (initial 0))
  /\ 0 <= time (run (tr ++ [e]) (initial 0))
  /\ time (run tr (initial 0)) <= time (run (tr ++ [e]) (initial 0)).
Proof.
  intros tr e.
  assert (Hm : clock_monotone 0 (tr ++ [e]) = true) by reflexivity.
  assert (He : e <> Reset) by discriminate.
  destruct (elapsed_time_never_decreases 0 tr e Hm) as (H1 & H2 & H3).
  split; [exact Hm |]. split; [exact He |].
  split; [exact H1 |]. split; [exact H2 | exact (H3 He)].
Defined.

(** X6. In a reachable state where the stopwatch is stopped, whatever
    happens short of a start or a reset (clock changes, timer handles
    firing, pause, lap and clear commands) leaves the elapsed time as it
    is and the stopwatch stopped. *)
Theorem time_frozen_while_stopped :
  forall (s : State) (tr : list Event),
    reachable s -> isRunning s = false ->
    forallb keeps_stopped tr = true ->
    time (run tr s) = time s /\ isRunning (run tr s) = false.
Proof.
  intros s tr Hreach Hr Hk.
  apply stopped_run; [by apply timer_discipline_reachable | done | done].
Qed.

Lemma time_frozen_while_stopped_witness :
  let s := run [Start 1%positive; Clock 1000; Tick 1%positive; Pause]
               (initial 0) in
  let tr := [Clock 4000; Tick 1%positive; Lap; Pause; Clear; Clock 9000;
             Tick 2%positive] in
  reachable s /\ isRunning s = false /\ forallb keeps_stopped tr = true
  /\ time (run tr s) = time s /\ isRunning (run tr s) = false.
Proof.
  intros s tr.
  assert (Hreach : reachable s) by apply reachable_run, reachable_initial.
  assert (Hr : isRunning s = false) by reflexivity.
  assert (Hk : forallb keeps_stopped tr = true) by reflexivity.
  split; [exact Hreach |]. split; [exact Hr |]. split; [exact Hk |].
  exact (time_frozen_while_stopped s tr Hreach Hr Hk).
Defined.

(* ================================================================== *)
(** ** The entries of the lap history *)
(* ================================================================== *)

Section Entries.

Lemma steps_between_nil : steps_between [].
Proof. split; intros; by rewrite lookup_nil in *. Qed.

Lemma steps_between_snoc (l : list LapTime) (e : LapTime) :
  steps_between l ->
  lapTime e = totalTime e - last_totalTime l ->
  steps_between (l ++ [e]).
Proof.
  intros [Hfirst Hstep] He. unfold last_totalTime in He. split.
  - intros a Ha. destruct l as [|x l].
    + simpl in *. injection Ha as <-. lia.
    + apply Hfirst. by simpl in *.
  - intros i a b Ha Hb.
    assert (Hi : (S i < length (l ++ [e]))%nat) by (by eapply lookup_lt_Some).
    rewrite length_app in Hi. simpl in Hi.
    rewrite lookup_app_l in Ha by lia.
    destruct (decide (S i < length l)%nat) as [Hlt | Hge].
    + rewrite lookup_app_l in Hb by done. by eapply Hstep.
    + rewrite lookup_app_r in Hb by lia.
      replace (S i - length l)%nat with 0%nat in Hb by lia.
      injection Hb as <-.
      rewrite last_lookup in He.
      replace (Init.Nat.pred (length l)) with i in He by lia.
      rewrite Ha in He. done.
Qed.

Lemma steps_between_handle (e : Event) (s : State) :
  steps_between (lapTimes s) -> steps_between (lapTimes (handle e s)).
Proof.
  intros Hs. destruct e as [t | h | h | | | |]; cbn [handle].
  - done.
  - unfold tick. by destruct (bool_decide (h ∈ timers s)).
  - unfold startStopwatch. by destruct (isRunning s).
  - unfold pauseStopwatch. by destruct (intervalRef s).
  - destruct (resetStopwatch_cells s) as (_ & _ & -> & _).
    apply steps_between_nil.
  - destruct (recordLap_cases s) as [(_ & _ & ->) | ->]; [| done]. cells.
    apply steps_between_snoc; [done |]. apply newLap_lapTime.
  - apply steps_between_nil.
Qed.

Lemma totalTime_positive_handle (e : Event) (s : State) :
  (forall x : LapTime, x ∈ lapTimes s -> 0 < totalTime x) ->
  forall x : LapTime, x ∈ lapTimes (handle e s) -> 0 < totalTime x.
Proof.
  intros Hs. destruct e as [t | h | h | | | |]; cbn [handle].
  - done.
  - unfold tick. by destruct (bool_decide (h ∈ timers s)).
  - unfold startStopwatch. by destruct (isRunning s).
  - unfold pauseStopwatch. by destruct (intervalRef s).
  - destruct (resetStopwatch_cells s) as (_ & _ & -> & _). set_solver.
  - destruct (recordLap_cases s) as [(_ & Ht & ->) | ->]; [| done]. cells.
    intros x [Hx | ->%list_elem_of_singleton]%elem_of_app; [by apply Hs | done].
  - cells. set_solver.
Qed.

(** With totals in order, steps between entries are not negative. *)
Lemma lapTime_nonneg_of_steps (l : list LapTime) :
  steps_between l -> non_decreasing l ->
  (forall x : LapTime, x ∈ l -> 0 < totalTime x) ->
  forall x : LapTime, x ∈ l -> 0 <= lapTime x.
Proof.
  intros [Hfirst Hstep] Hord Hpos x Hx.
  pose proof (Hpos x Hx) as Hp.
  apply list_elem_of_lookup_1 in Hx as [[|i] Hi].
  - rewrite (Hfirst x Hi). lia.
  - destruct (lookup_lt_is_Some_2 l i) as [a Ha].
    { apply lookup_lt_Some in Hi. lia. }
    rewrite (Hstep i a x Ha Hi).
    pose proof (Hord i (S i) a x ltac:(lia) Ha Hi). lia.
Qed.

Lemma steps_between_reachable (s : State) :
  reachable s -> steps_between (lapTimes s).
Proof.
  apply (reachable_invariant (fun s => steps_between (lapTimes s))).
  - intros t0. apply steps_between_nil.
  - apply steps_between_handle.
Qed.

Lemma totalTime_positive_reachable (s : State) :
  reachable s -> forall x : LapTime, x ∈ lapTimes s -> 0 < totalTime x.
Proof.
  apply (reachable_invariant
           (fun s => forall x : LapTime, x ∈ lapTimes s -> 0 < totalTime x)).
  - intros t0 x Hx. simpl in Hx. set_solver.
  - apply totalTime_positive_handle.
Qed.

End Entries.

(** X7. In every reachable state each entry of the history has a
    strictly positive total time; the first entry's lap time is its
    total time and every later entry's lap time is its total time minus
    the total time of the entry before it. *)
Theorem lap_entries_are_steps :
  forall s : State,
    reachable s ->
    (forall x : LapTime, x ∈ lapTimes s -> 0 < totalTime x)
    /\ (forall a : LapTime,
          lapTimes s !! 0%nat = Some a -> lapTime a = totalTime a)
    /\ (forall (i : nat) (a b : LapTime),
          lapTimes s !! i = Some a -> lapTimes s !! S i = Some b ->
          lapTime b = totalTime b - totalTime a).
Proof.
  intros s Hreach.
  destruct (steps_between_reachable s Hreach) as [Hfirst Hstep].
  split; [by apply totalTime_positive_reachable | done].
Qed.

Lemma lap_entries_are_steps_witness :
  let s := run [Start 1%positive; Clock 1000; Tick 1%positive; Lap;
                Clock 2500; Tick 1%positive; Lap] (initial 0) in
  let a := mkLap 1000 1 1000 1000 in
  let b := mkLap 2500 2 1500 2500 in
  reachable s
  /\ b ∈ lapTimes s /\ 0 < totalTime b
  /\ lapTimes s !! 0%nat = Some a /\ lapTime a = totalTime a
  /\ lapTimes s !! 1%nat = Some b /\ lapTime b = totalTime b - totalTime a.
Proof.
  intros s a b.
  assert (Hreach : reachable s) by apply reachable_run, reachable_initial.
  assert (Ha : lapTimes s !! 0%nat = Some a) by (vm_compute; reflexivity).
  assert (Hb : lapTimes s !! 1%nat = Some b) by (vm_compute; reflexivity).
  assert (Hin : b ∈ lapTimes s) by (eapply list_elem_of_lookup_2, Hb).
  destruct (lap_entries_are_steps s Hreach) as (H1 & H2 & H3).
  split; [exact Hreach |]. split; [exact Hin |]. split; [exact (H1 b Hin) |].
  split; [exact Ha |]. split; [exact (H2 a Ha) |].
  split; [exact Hb | exact (H3 0%nat a b Ha Hb)].
Defined.

(** X8. As long as the clock never goes back, no entry of the history
    has a negative lap time. *)
Theorem lapTime_never_negative :
  forall (t0 : Z) (tr : list Event) (x : LapTime),
    clock_monotone t0 tr = true ->
    x ∈ lapTimes (run tr (initial t0)) ->
    0 <= lapTime x.
Proof.
  intros t0 tr x Hm Hx.
  destruct (time_run_initial t0 tr Hm) as (_ & (_ & _ & Hord) & _).
  assert (Hreach : reachable (run tr (initial t0)))
    by apply reachable_run, reachable_initial.
  apply (lapTime_nonneg_of_steps (lapTimes (run tr (initial t0)))); try done.
  - by apply steps_between_reachable.
  - by apply totalTime_positive_reachable.
Qed.

Lemma lapTime_never_negative_witness :
  let tr := [Start 1%positive; Clock 1000; Tick 1%positive; Lap; Lap] in
  let x := mkLap 1000 2 0 1000 in
  clock_monotone 0 tr = true
  /\ x ∈ lapTimes (run tr (initial 0))
  /\ 0 <= lapTime x.
Proof.
  intros tr x.
  assert (Hm : clock_monotone 0 tr = true) by reflexivity.
  assert (Hx : x ∈ lapTimes (run tr (initial 0))).
  { apply (list_elem_of_lookup_2 _ 1%nat). vm_compute. reflexivity. }
  split; [exact Hm |]. split; [exact Hx |].
  exact (lapTime_never_negative 0 tr x Hm Hx).
Defined.

(* ================================================================== *)
(** ** Buttons *)
(* ================================================================== *)

Lemma lapButtonDisabled_recordLap (s : State) :
  lapButtonDisabled s = true -> recordLap s = s.
Proof.
  intros Hd. unfold lapButtonDisabled in Hd.
  apply orb_prop in Hd as [Hr | Ht].
  - apply recordLap_stopped. by destruct (isRunning s).
  - apply recordLap_not_started. lia.
Qed.

(** X9. Whenever the Lap button is disabled, [recordLap] changes
    nothing.  After a run on a clock that never went back the converse
    holds too: with the button enabled, [recordLap] appends an entry.
    On a clock that was set back the button can be enabled while
    [recordLap] does nothing. *)
Theorem lap_button_matches_recordLap :
  (forall s : State, lapButtonDisabled s = true -> recordLap s = s)
  /\ (forall (t0 : Z) (tr : list Event),
        clock_monotone t0 tr = true ->
        lapButtonDisabled (run tr (initial t0)) = false ->
        lapTimes (recordLap (run tr (initial t0)))
        = lapTimes (run tr (initial t0)) ++ [newLap (run tr (initial t0))])
  /\ (exists s : State,
        reachable s /\ lapButtonDisabled s = false /\ recordLap s = s).
Proof.
  split; [| split].
  - apply lapButtonDisabled_recordLap.
  - intros t0 tr Hm Hd.
    destruct (time_run_initial t0 tr Hm) as (_ & _ & Ht).
    unfold lapButtonDisabled in Hd. apply orb_false_elim in Hd as [Hr Hz].
    rewrite recordLap_records; [done | by destruct (isRunning _) | lia].
  - exists (run [Start 1%positive; Clock (-600); Tick 1%positive] (initial 0)).
    split; [apply reachable_run, reachable_initial |].
    split; by vm_compute.
Qed.

Lemma lap_button_matches_recordLap_witness :
  let off := run [Start 1%positive] (initial 0) in
  let tr := [Start 1%positive; Clock 10; Tick 1%positive] in
  (lapButtonDisabled off = true /\ recordLap off = off)
  /\ (clock_monotone 0 tr = true
      /\ lapButtonDisabled (run tr (initial 0)) = false
      /\ lapTimes (recordLap (run tr (initial 0)))
         = lapTimes (run tr (initial 0)) ++ [newLap (run tr (initial 0))]).
Proof.
  intros off tr.
  assert (Hoff : lapButtonDisabled off = true) by reflexivity.
  assert (Hm : clock_monotone 0 tr = true) by reflexivity.
  assert (Hon : lapButtonDisabled (run tr (initial 0)) = false) by reflexivity.
  destruct lap_button_matches_recordLap as (H1 & H2 & _).
  split; [split; [exact Hoff | exact (H1 off Hoff)] |].
  split; [exact Hm |]. split; [exact Hon | exact (H2 0 tr Hm Hon)].
Defined.

(** X10. In a reachable state the Clear button is disabled exactly
    when [clearLaps] would change nothing. *)
Theorem clear_button_matches_clearLaps :
  forall s : State,
    reachable s ->
    (clearButtonDisabled s = true <-> clearLaps s = s).
Proof.
  intros s Hreach. destruct (counter_in_step_reachable s Hreach) as [Hc _].
  unfold clearButtonDisabled. split.
  - intros Hd. apply Z.eqb_eq in Hd.
    assert (Hl : lapTimes s = []) by (apply length_zero_iff_nil; lia).
    rewrite Hl in Hc. simpl in Hc.
    unfold clearLaps. destruct s. cells. by subst.
  - intros Heq. assert (Hl : lapTimes s = []) by (by rewrite <- Heq).
    by rewrite Hl.
Qed.

Lemma clear_button_matches_clearLaps_witness :
  let s := run [Start 1%positive; Clock 1000; Tick 1%positive; Lap; Clear]
               (initial 0) in
  reachable s /\ clearButtonDisabled s = true /\ clearLaps s = s.
Proof.
  intros s.
  assert (Hreach : reachable s) by apply reachable_run, reachable_initial.
  assert (Hd : clearButtonDisabled s = true) by reflexivity.
  split; [exact Hreach |]. split; [exact Hd |].
  exact (proj1 (clear_button_matches_clearLaps s Hreach) Hd).
Defined.

(* ================================================================== *)
(** ** Keyboard *)
(* ================================================================== *)

Section Keyboard.

(** A key is one of the events of a run, or nothing at all. *)
Lemma handleKeyPress_cases (ev : KeyboardEvent) (h : positive) (s : State) :
  (exists e : Event, handleKeyPress ev h s = (handle e s, true))
  \/ handleKeyPress ev h s = (s, false).
Proof.
  unfold handleKeyPress.
  destruct (String.eqb (code ev) "Space").
  { left. destruct (isRunning s) eqn:Hr.
    - by exists Pause.
    - exists (Start h). cbn [handle]. unfold startStopwatch. by rewrite Hr. }
  destruct (String.eqb (code ev) "KeyR").
  { destruct (ctrlKey ev || metaKey ev); [left; by exists Reset | by right]. }
  destruct (String.eqb (code ev) "KeyL").
  { destruct (ctrlKey ev || metaKey ev); [left; by exists Lap | by right]. }
  by right.
Qed.

Lemma space_key (ev : KeyboardEvent) (h : positive) (s : State) :
  code ev = "Space" ->
  handleKeyPress ev h s = (mainButtonClick h s, true).
Proof. intros Hc. unfold handleKeyPress. by rewrite Hc. Qed.

Lemma mainButtonClick_cells (h : positive) (s : State) :
  isRunning (mainButtonClick h s) = negb (isRunning s)
  /\ time (mainButtonClick h s) = time s
  /\ lapTimes (mainButtonClick h s) = lapTimes s
  /\ lapCounter (mainButtonClick h s) = lapCounter s.
Proof.
  unfold mainButtonClick. destruct (isRunning s) eqn:Hr.
  - unfold pauseStopwatch. by destruct (intervalRef s).
  - unfold startStopwatch. by rewrite Hr.
Qed.

End Keyboard.

(** X11. A key press leads from a reachable state to a reachable
    state; when it does not call [preventDefault] it leaves the state
    alone; and Ctrl/Cmd+L while the Lap button is disabled changes
    nothing. *)
Theorem handleKeyPress_stays_reachable :
  forall (ev : KeyboardEvent) (h : positive) (s : State),
    (reachable s -> reachable (fst (handleKeyPress ev h s)))
    /\ (snd (handleKeyPress ev h s) = false -> fst (handleKeyPress ev h s) = s)
    /\ (code ev = "KeyL" -> lapButtonDisabled s = true ->
        fst (handleKeyPress ev h s) = s).
Proof.
  intros ev h s. split; [| split].
  - intros Hreach.
    destruct (handleKeyPress_cases ev h s) as [(e & ->) | ->]; [| done].
    by apply reachable_handle.
  - by destruct (handleKeyPress_cases ev h s) as [(e & ->) | ->].
  - intros Hc Hd. unfold handleKeyPress. rewrite Hc.
    change (String.eqb "KeyL" "Space") with false.
    change (String.eqb "KeyL" "KeyR") with false.
    change (String.eqb "KeyL" "KeyL") with true. cbn iota.
    destruct (ctrlKey ev || metaKey ev); [| done].
    by apply lapButtonDisabled_recordLap.
Qed.

Lemma handleKeyPress_stays_reachable_witness :
  let s := run [Start 1%positive] (initial 0) in
  let plainR := mkKey "KeyR" false false in
  let cmdL := mkKey "KeyL" false true in
  reachable s
  /\ reachable (fst (handleKeyPress cmdL 2%positive s))
  /\ snd (handleKeyPress plainR 2%positive s) = false
  /\ fst (handleKeyPress plainR 2%positive s) = s
  /\ code cmdL = "KeyL" /\ lapButtonDisabled s = true
  /\ fst (handleKeyPress cmdL 2%positive s) = s.
Proof.
  intros s plainR cmdL.
  assert (Hreach : reachable s) by apply reachable_run, reachable_initial.
  assert (Hp : snd (handleKeyPress plainR 2%positive s) = false) by reflexivity.
  assert (Hc : code cmdL = "KeyL") by reflexivity.
  assert (Hd : lapButtonDisabled s = true) by reflexivity.
  split; [exact Hreach |].
  split; [exact (proj1 (handleKeyPress_stays_reachable cmdL 2%positive s) Hreach) |].
  split; [exact Hp |].
  split; [exact (proj1 (proj2 (handleKeyPress_stays_reachable plainR 2%positive s)) Hp) |].
  split; [exact Hc |]. split; [exact Hd |].
  exact (proj2 (proj2 (handleKeyPress_stays_reachable cmdL 2%positive s)) Hc Hd).
Defined.

(** X12. The Space key does what a click on the main button does and
    always calls [preventDefault]: it turns a stopped stopwatch into a
    running one and back, and leaves elapsed time, history and counter
    alone; pressed twice it gives these four cells back as they were. *)
Theorem space_key_toggles :
  forall (ev : KeyboardEvent) (h1 h2 : positive) (s : State),
    code ev = "Space" ->
    handleKeyPress ev h1 s = (mainButtonClick h1 s, true)
    /\ isRunning (fst (handleKeyPress ev h1 s)) = negb (isRunning s)
    /\ time (fst (handleKeyPress ev h1 s)) = time s
    /\ lapTimes (fst (handleKeyPress ev h1 s)) = lapTimes s
    /\ lapCounter (fst (handleKeyPress ev h1 s)) = lapCounter s
    /\ core (fst (handleKeyPress ev h2 (fst (handleKeyPress ev h1 s))))
       = core s.
Proof.
  intros ev h1 h2 s Hc. rewrite !space_key by done. cbn [fst].
  destruct (mainButtonClick_cells h1 s) as (Hr & Ht & Hl & Hn).
  destruct (mainButtonClick_cells h2 (mainButtonClick h1 s))
    as (Hr' & Ht' & Hl' & Hn').
  do 5 (split; [done |]).
  unfold core. rewrite Hr', Ht', Hl', Hn', Hr, Ht, Hl, Hn.
  by rewrite negb_involutive.
Qed.

Lemma space_key_toggles_witness :
  let ev := mkKey "Space" false false in
  let s := run [Start 1%positive; Clock 700; Tick 1%positive; Lap] (initial 0) in
  code ev = "Space"
  /\ isRunning (fst (handleKeyPress ev 2%positive s)) = negb (isRunning s)
  /\ core (fst (handleKeyPress ev 3%positive (fst (handleKeyPress ev 2%positive s))))
     = core s.
Proof.
  intros ev s.
  assert (Hc : code ev = "Space") by reflexivity.
  destruct (space_key_toggles ev 2%positive 3%positive s Hc)
    as (_ & H1 & _ & _ & _ & H2).
  split; [exact Hc |]. split; [exact H1 | exact H2].
Defined.

(* ================================================================== *)
(** ** What is displayed *)
(* ================================================================== *)

Section Display.

Lemma lapRows_lookup (s : State) (j : nat) (row : LapRow) :
  lapRows s !! j = Some row ->
  (j < length (lapTimes s))%nat
  /\ exists lap : LapTime,
       lapTimes s !! (length (lapTimes s) - S j)%nat = Some lap
       /\ row = lapRow lap.
Proof.
  unfold lapRows. rewrite list_lookup_fmap. intros Hrow.
  destruct (reverse (lapTimes s) !! j) as [lap |] eqn:Hlap; [| done].
  injection Hrow as <-.
  apply reverse_lookup_Some in Hlap as [Hlap Hj].
  split; [done |]. by exists lap.
Qed.

End Display.

(** X13. In a reachable state the array of row elements that the
    render hands to React for the lap list has one element per entry,
    the latest lap first: with [n] entries, element [j] (from 0) is
    built from the entry at index [n - 1 - j] and carries the number
    [n - j]; so no two elements of the array carry the same number.
    (This is about the array the render returns; how React reconciles
    it on screen is not modelled.) *)
Theorem lapRows_latest_first :
  forall s : State,
    reachable s ->
    length (lapRows s) = length (lapTimes s)
    /\ (forall (j : nat) (row : LapRow),
          lapRows s !! j = Some row ->
          (exists lap : LapTime,
             lapTimes s !! (length (lapTimes s) - S j)%nat = Some lap
             /\ row = lapRow lap)
          /\ rowNumber row = Z.of_nat (length (lapTimes s)) - Z.of_nat j)
    /\ NoDup (rowNumber <$> lapRows s).
Proof.
  intros s Hreach.
  destruct (counter_in_step_reachable s Hreach) as [_ Hn].
  assert (Hnum : forall (j : nat) (row : LapRow),
             lapRows s !! j = Some row ->
             rowNumber row = Z.of_nat (length (lapTimes s)) - Z.of_nat j).
  { intros j row Hrow.
    destruct (lapRows_lookup s j row Hrow) as (Hj & lap & Hlap & ->).
    cbn [lapRow rowNumber]. rewrite (Hn _ _ Hlap). lia. }
  split; [| split].
  - unfold lapRows. by rewrite length_fmap, length_reverse.
  - intros j row Hrow. split; [| by apply Hnum].
    destruct (lapRows_lookup s j row Hrow) as (_ & lap & Hlap & ->).
    by exists lap.
  - apply NoDup_alt. intros i j x Hi Hj.
    rewrite list_lookup_fmap in Hi, Hj.
    destruct (lapRows s !! i) as [ri |] eqn:Hri; [| done].
    destruct (lapRows s !! j) as [rj |] eqn:Hrj; [| done].
    injection Hi as Hi. injection Hj as Hj.
    pose proof (Hnum i ri Hri). pose proof (Hnum j rj Hrj). lia.
Qed.

Lemma lapRows_latest_first_witness :
  let s := run [Start 1%positive; Clock 1000; Tick 1%positive; Lap;
                Clock 2500; Tick 1%positive; Lap] (initial 0) in
  let row := mkRow 2500 2 "00:01.50" "00:02.50" in
  reachable s
  /\ lapRows s !! 0%nat = Some row
  /\ rowNumber row = Z.of_nat (length (lapTimes s)) - Z.of_nat 0
  /\ NoDup (rowNumber <$> lapRows s).
Proof.
  intros s row.
  assert (Hreach : reachable s) by apply reachable_run, reachable_initial.
  assert (Hrow : lapRows s !! 0%nat = Some row) by (vm_compute; reflexivity).
  destruct (lapRows_latest_first s Hreach) as (_ & H2 & H3).
  split; [exact Hreach |]. split; [exact Hrow |].
  split; [exact (proj2 (H2 0%nat row Hrow)) | exact H3].
Defined.

(** X14. After a run on a clock that never went back, everything the
    component formats reads as [MM:SS.CC]: the time display for the
    elapsed time, and in every row of the lap list the lap time and the
    total time of its entry. *)
Theorem displayed_times_well_formed :
  forall (t0 : Z) (tr : list Event),
    clock_monotone t0 tr = true ->
    reads_MM_SS_CC (time (run tr (initial t0)))
                   (timeDisplay (run tr (initial t0)))
    /\ forall row : LapRow,
         row ∈ lapRows (run tr (initial t0)) ->
         exists lap : LapTime,
           lap ∈ lapTimes (run tr (initial t0))
           /\ row = lapRow lap
           /\ reads_MM_SS_CC (lapTime lap) (rowLapTime row)
           /\ reads_MM_SS_CC (totalTime lap) (rowTotalTime row).
Proof.
  intros t0 tr Hm.
  destruct (time_run_initial t0 tr Hm) as (_ & (_ & _ & Hord) & Ht).
  assert (Hreach : reachable (run tr (initial t0)))
    by apply reachable_run, reachable_initial.
  pose proof (steps_between_reachable _ Hreach) as Hsteps.
  pose proof (totalTime_positive_reachable _ Hreach) as Hpos.
  split; [by apply formatTime_reads_nonneg |].
  intros row Hrow. unfold lapRows in Hrow.
  apply list_elem_of_fmap in Hrow as (lap & -> & Hlap).
  rewrite elem_of_reverse in Hlap.
  exists lap. split; [done |]. split; [done |].
  cbn [lapRow rowLapTime rowTotalTime]. split.
  - apply formatTime_reads_nonneg.
    by apply (lapTime_nonneg_of_steps _ Hsteps Hord Hpos).
  - apply formatTime_reads_nonneg. specialize (Hpos lap Hlap). lia.
Qed.

Lemma displayed_times_well_formed_witness :
  let tr := [Start 1%positive; Clock 1000; Tick 1%positive; Lap;
             Clock 62340; Tick 1%positive] in
  let row := mkRow 1000 1 "00:01.00" "00:01.00" in
  clock_monotone 0 tr = true
  /\ reads_MM_SS_CC (time (run tr (initial 0)))
                    (timeDisplay (run tr (initial 0)))
  /\ row ∈ lapRows (run tr (initial 0))
  /\ exists lap : LapTime,
       lap ∈ lapTimes (run tr (initial 0))
       /\ row = lapRow lap
       /\ reads_MM_SS_CC (lapTime lap) (rowLapTime row)
       /\ reads_MM_SS_CC (totalTime lap) (rowTotalTime row).
Proof.
  intros tr row.
  assert (Hm : clock_monotone 0 tr = true) by reflexivity.
  assert (Hrow : row ∈ lapRows (run tr (initial 0))).
  { apply (list_elem_of_lookup_2 _ 0%nat). vm_compute. reflexivity. }
  split; [exact Hm |].
  split; [exact (proj1 (displayed_times_well_formed 0 tr Hm)) |].
  split; [exact Hrow |].
  exact (proj2 (displayed_times_well_formed 0 tr Hm) row Hrow).
Defined.


(* ================================================================== *)
(** ** Handlers one after the other *)
(* ================================================================== *)

Section OnCells.

Variables (t : Z) (r : bool) (l : list LapTime) (i : option positive)
          (o c n : Z) (m : gset positive).

Lemma pauseStopwatch_mk :
  pauseStopwatch (mkState t r l i o c n m)
  = mkState t false l None o c n
            (match i with Some h => m ∖ {[ h ]} | None => m end).
Proof. by destruct i. Qed.

Lemma resetStopwatch_mk :
  resetStopwatch (mkState t r l i o c n m)
  = mkState 0 false [] None o 1 n
            (match i with Some h => m ∖ {[ h ]} | None => m end).
Proof. by destruct i. Qed.

Lemma clearLaps_mk :
  clearLaps (mkState t r l i o c n m) = mkState t r [] i o 1 n m.
Proof. done. Qed.

Lemma recordLap_mk :
  recordLap (mkState t r l i o c n m)
  = if r && (0 <? t)
    then mkState t r (l ++ [newLap (mkState t r l i o c n m)]) i o (c + 1) n m
    else mkState t r l i o c n m.
Proof. unfold recordLap. cbn [isRunning time]. by destruct (r && (0 <? t)). Qed.

End OnCells.

(** X15. Pausing, resetting and clearing twice is the same as once; a
    reset makes an earlier pause, lap or clear invisible, and a clear
    makes an earlier lap invisible; pausing and clearing commute. *)
Theorem handlers_absorb :
  forall s : State,
    pauseStopwatch (pauseStopwatch s) = pauseStopwatch s
    /\ resetStopwatch (resetStopwatch s) = resetStopwatch s
    /\ clearLaps (clearLaps s) = clearLaps s
    /\ resetStopwatch (pauseStopwatch s) = resetStopwatch s
    /\ resetStopwatch (recordLap s) = resetStopwatch s
    /\ resetStopwatch (clearLaps s) = resetStopwatch s
    /\ clearLaps (recordLap s) = clearLaps s
    /\ clearLaps (pauseStopwatch s) = pauseStopwatch (clearLaps s).
Proof.
  intros [t r l i o c n m].
  rewrite recordLap_mk.
  destruct (r && (0 <? t));
    repeat first [rewrite pauseStopwatch_mk | rewrite resetStopwatch_mk
                 | rewrite clearLaps_mk];
    by repeat split.
Qed.

(* ================================================================== *)
(** ** One timer at a time *)
(* ================================================================== *)

(** X16. In every reachable state at most one sampling timer is live:
    the live handles are exactly the handle held in [intervalRef], and
    there is one exactly while the stopwatch is running. *)
Theorem at_most_one_timer :
  forall s : State,
    reachable s ->
    (size (timers s) <= 1)%nat
    /\ (forall h : positive, h ∈ timers s <-> intervalRef s = Some h)
    /\ (isRunning s = true <-> timers s <> ∅).
Proof.
  intros s Hreach.
  destruct (timer_discipline_reachable s Hreach) as [Hm Hr].
  rewrite Hm, Hr. destruct (intervalRef s) as [h' |].
  - rewrite size_singleton. split; [lia |]. split.
    + intros h. rewrite elem_of_singleton. split; [by intros -> | by intros [= ->]].
    + split; [| done]. intros _ Hempty.
      assert (Hin : h' ∈ (∅ : gset positive)) by (rewrite <- Hempty; set_solver).
      set_solver.
  - rewrite size_empty. split; [lia |]. split.
    + intros h. split; [set_solver | done].
    + split; [done | by intros []].
Qed.

Lemma at_most_one_timer_witness :
  let s := run [Start 1%positive; Clock 500; Tick 1%positive; Pause;
                Start 2%positive; Start 3%positive] (initial 0) in
  reachable s
  /\ (size (timers s) <= 1)%nat
  /\ (2%positive ∈ timers s <-> intervalRef s = Some 2%positive)
  /\ (isRunning s = true <-> timers s <> ∅).
Proof.
  intros s.
  assert (Hreach : reachable s) by apply reachable_run, reachable_initial.
  destruct (at_most_one_timer s Hreach) as (H1 & H2 & H3).
  split; [exact Hreach |]. split; [exact H1 |].
  split; [exact (H2 2%positive) | exact H3].
Defined.

(* ================================================================== *)
(** ** Keys of the rows *)
(* ================================================================== *)



(* ================================================================== *)
(** ** What a pause keeps *)
(* ================================================================== *)

(** Start on a stopped stopwatch, then one sample [d] ms later. *)
Lemma start_then_sample (h : positive) (d : Z) (s : State) :
  isRunning s = false ->
  run [Start h; Clock (now s + d); Tick h] s
  = mkState (time s + d) true (lapTimes s) (Some h) (now s - time s)
            (lapCounter s) (now s + d) ({[ h ]} ∪ timers s).
Proof.
  intros Hr. cbn [run fold_left handle].
  unfold startStopwatch. rewrite Hr. cbn [negb].
  rewrite tick_live by (cells; set_solver).
  unfold setInterval. cells. f_equal. lia.
Qed.

Lemma pause_between (a b : Z) (s : State) :
  time (run [Clock a; Pause; Clock b] s) = time s
  /\ isRunning (run [Clock a; Pause; Clock b] s) = false
  /\ now (run [Clock a; Pause; Clock b] s) = b.
Proof.
  cbn [run fold_left handle].
  change (time (set_now b ?x)) with (time x).
  change (isRunning (set_now b ?x)) with (isRunning x).
  change (now (set_now b ?x)) with b.
  by rewrite pauseStopwatch_time, pauseStopwatch_isRunning.
Qed.

(** X18. A pause keeps the last sample, not the clock: of a first run
    of [d1] ms up to the last sample and [d2] ms more up to the pause,
    followed after any gap by a second run sampled after [d3] ms, the
    elapsed time retains [d1 + d3]; the [d2] ms between the last sample
    and the pause are dropped. *)
Theorem pause_keeps_last_sample :
  forall (h1 h2 : positive) (d1 d2 gap d3 : Z) (s : State),
    isRunning s = false ->
    time (run [Start h1; Clock (now s + d1); Tick h1;
               Clock (now s + d1 + d2); Pause;
               Clock (now s + d1 + d2 + gap);
               Start h2; Clock (now s + d1 + d2 + gap + d3); Tick h2] s)
    = time s + d1 + d3.
Proof.
  intros h1 h2 d1 d2 gap d3 s Hr.
  rewrite (run_app [Start h1; Clock (now s + d1); Tick h1]
             ([Clock (now s + d1 + d2); Pause; Clock (now s + d1 + d2 + gap)]
                ++ [Start h2; Clock (now s + d1 + d2 + gap + d3); Tick h2])).
  rewrite run_app.
  set (s1 := run [Start h1; Clock (now s + d1); Tick h1] s).
  assert (H1 : time s1 = time s + d1)
    by (subst s1; by rewrite start_then_sample).
  destruct (pause_between (now s + d1 + d2) (now s + d1 + d2 + gap) s1)
    as (Ht2 & Hr2 & Hn2).
  set (s2 := run [Clock (now s + d1 + d2); Pause;
                  Clock (now s + d1 + d2 + gap)] s1) in *.
  replace (now s + d1 + d2 + gap + d3) with (now s2 + d3) by lia.
  rewrite start_then_sample by done. cbn [time]. lia.
Qed.

Lemma pause_keeps_last_sample_witness :
  let s := initial 0 in
  isRunning s = false
  /\ time (run [Start 1%positive; Clock (now s + 500); Tick 1%positive;
                Clock (now s + 500 + 7); Pause;
                Clock (now s + 500 + 7 + 2000);
                Start 2%positive; Clock (now s + 500 + 7 + 2000 + 300);
                Tick 2%positive] s)
     = time s + 500 + 300.
Proof.
  intros s.
  assert (Hr : isRunning s = false) by reflexivity.
  split; [exact Hr |].
  exact (pause_keeps_last_sample 1%positive 2%positive 500 7 2000 300 s Hr).
Defined.
